(** * Foodgram backend: the recipe aggregate and the association validators

    A shallow embedding of [backend/api/serializers.py] (the serializers that
    validate and write recipes, favourites and subscriptions), of the
    [Subscriptions] model of [backend/users/models.py], and of the parts of the
    Django ORM those functions call, followed by the properties of the
    specification stated over that embedding. *)

From stdpp Require Import numbers gmap strings list sets.

Set Warnings "-clear-no-such-hyp".

Open Scope Z_scope.

(** ** Exceptions and results *)

(** [type(tag)] of a value arriving in a JSON payload. *)
Inductive pytype : Set :=
  | t_int | t_bool | t_str | t_float | t_NoneType | t_list | t_dict.

(** The key under which a serializer error is reported. *)
Inductive error_key : Set :=
  | k_detail    (* 'detail' *)
  | k_tags      (* 'tags'   *)
  | k_errors.   (* 'errors' *)

(** The messages of [serializers.py], with the values they interpolate. *)
Inductive message : Set :=
  | msg_duplicates (err_obj : list string)
      (* 'Имеются повторы ингредиентов: {err_obj}. Ингредиенты не должны ...' *)
  | msg_param_not_found
      (* 'Один из параметров не найден.' *)
  | msg_expected_int (errors : list pytype)
      (* 'Ожидались параметры 'int', получены {errors}.' *)
  | msg_already_subscribed
      (* 'Пользователь уже подписан.' *)
  | msg_not_subscribed
      (* 'Пользователь не подписан.' *)
  | msg_self_subscribe.
      (* 'Пользователь не может подписаться на себя.' *)

Inductive exn : Set :=
  | ValidationError (k : error_key) (m : message)
  | NotFound (k : error_key) (m : message)
  | IntegrityError
  | ValueError
  | TypeError
  | AttributeError
  | OverflowError
  | KeyError
  | DataError.
      (* django.db.DataError: a value outside the range of its column; the
         sqlite3 driver raises OverflowError for it instead *)

(** A computation either raises or returns. *)
Definition result (A : Type) : Type := exn + A.

Definition ret {A} (a : A) : result A := inr a.
Definition raise {A} (e : exn) : result A := inl e.

Definition bind {A B} (c : result A) (k : A → result B) : result B :=
  match c with
  | inl e => inl e
  | inr a => k a
  end.

Notation "'let!' x ':=' c 'in' k" := (bind c (λ x, k))
  (at level 10, x name, c at level 100, k at level 200).

Definition succeeds {A} (c : result A) : bool :=
  match c with inr _ => true | inl _ => false end.

(** ** Python values and the builtins the ORM applies to them *)

(** A value of the [tags] list of a JSON payload. Arrays and objects are
    kept opaque: nothing below looks inside them. [PyFloat] is a finite
    [float]; [PyInfinity] is [inf] or [-inf], which is how a JSON number too
    large for a [float] (1e400) arrives. *)
Inductive pyval : Set :=
  | PyInt (n : Z)
  | PyBool (b : bool)
  | PyStr (s : string)
  | PyFloat (q : QArith_base.Q)
  | PyNone
  | PyList
  | PyDict
  | PyInfinity (negative : bool).

Definition type_of (v : pyval) : pytype :=
  match v with
  | PyInt _ => t_int
  | PyBool _ => t_bool
  | PyStr _ => t_str
  | PyFloat _ => t_float
  | PyNone => t_NoneType
  | PyList => t_list
  | PyDict => t_dict
  | PyInfinity _ => t_float
  end.

Global Instance pytype_eq_dec : EqDecision pytype.
Proof. solve_decision. Defined.

(** Python's [int(s)] on a [str] is not part of the repository; it is taken
    as given: [None] stands for the [ValueError] it raises. *)
Class PyBuiltins := { int_of_str : string → option Z }.

(** [int(v)]: identity on [int], 0/1 on [bool], truncation towards zero on a
    finite [float], [OverflowError] on an infinite one, parsing on [str],
    [TypeError] on [None] and on containers. *)
Definition py_int `{PyBuiltins} (v : pyval) : result Z :=
  match v with
  | PyInt n => ret n
  | PyBool b => ret (if b then 1 else 0)
  | PyFloat q => ret (Z.quot (QArith_base.Qnum q) (Z.pos (QArith_base.Qden q)))
  | PyStr s =>
      match int_of_str s with
      | Some n => ret n
      | None => raise ValueError
      end
  | PyNone | PyList | PyDict => raise TypeError
  | PyInfinity _ => raise OverflowError
  end.

(** ** Catalogue rows and validated ingredient entries *)

Record Ingredient : Set := mkIngredient {
  ingredient_id : Z;
  ingredient_name : string;
  measurement_unit : string
}.

(** One validated item of the [ingredients] field: the keys ['ingredient']
    (the resolved catalogue row) and ['amount']. *)
Record ingred_item : Set := mkItem {
  ingredient : Ingredient;
  amount : Z
}.

(** ** The store *)

Record Tag : Set := mkTag {
  tag_name : string;
  color : string;
  slug : string
}.

(** A row of [Recipe] without its primary key. *)
Record Recipe : Set := mkRecipe {
  author : Z;
  name : string;
  image : string;
  text : string;
  cooking_time : Z
}.

(** The scalar fields left in [validated_data] once ['tags'] and
    ['ingred_recipes'] are popped. *)
Record recipe_fields : Set := mkFields {
  f_name : string;
  f_image : string;
  f_text : string;
  f_cooking_time : Z
}.

(** A row of [IngredientRecipe]: recipe, ingredient, amount. *)
Record IngredientRecipe : Set := mkIngredientRecipe {
  ir_recipe : Z;
  ir_ingredient : Z;
  ir_amount : Z
}.

Record database : Type := mkDatabase {
  tag_table : gmap Z Tag;
  recipe_table : gmap Z Recipe;
  recipe_tags : gset (Z * Z);          (* through table of Recipe.tags *)
  ingredient_recipe : list IngredientRecipe;
  favourite : gset (Z * Z);            (* FavouriteRecipes: (user, recipe) *)
  carts : gset (Z * Z);                (* cart rows: (user, recipe) *)
  subscriptions : gset (Z * Z)         (* Subscriptions: (user, follower) *)
}.

Definition set_recipe_table (f : gmap Z Recipe → gmap Z Recipe)
    (db : database) : database :=
  mkDatabase (tag_table db) (f (recipe_table db)) (recipe_tags db)
    (ingredient_recipe db) (favourite db) (carts db) (subscriptions db).

Definition set_recipe_tags (f : gset (Z * Z) → gset (Z * Z))
    (db : database) : database :=
  mkDatabase (tag_table db) (recipe_table db) (f (recipe_tags db))
    (ingredient_recipe db) (favourite db) (carts db) (subscriptions db).

Definition set_ingredient_recipe
    (f : list IngredientRecipe → list IngredientRecipe)
    (db : database) : database :=
  mkDatabase (tag_table db) (recipe_table db) (recipe_tags db)
    (f (ingredient_recipe db)) (favourite db) (carts db) (subscriptions db).

Definition set_favourite (f : gset (Z * Z) → gset (Z * Z))
    (db : database) : database :=
  mkDatabase (tag_table db) (recipe_table db) (recipe_tags db)
    (ingredient_recipe db) (f (favourite db)) (carts db) (subscriptions db).

Definition set_carts (f : gset (Z * Z) → gset (Z * Z))
    (db : database) : database :=
  mkDatabase (tag_table db) (recipe_table db) (recipe_tags db)
    (ingredient_recipe db) (favourite db) (f (carts db)) (subscriptions db).

(** What a reader of the store sees of one recipe. *)
Definition tags_of (db : database) (recipe : Z) : gset Z :=
  set_map snd (filter (λ row, row.1 = recipe) (recipe_tags db)).

Definition ingred_recipes_of (db : database) (recipe : Z)
    : list IngredientRecipe :=
  filter (λ row, ir_recipe row = recipe) (ingredient_recipe db).

(** ** Stateful computations: the store survives an exception *)

Definition M (A : Type) : Type := database → database * result A.

Definition mret {A} (a : A) : M A := λ db, (db, ret a).
Definition mraise {A} (e : exn) : M A := λ db, (db, raise e).

Definition mbind {A B} (c : M A) (k : A → M B) : M B :=
  λ db, match c db with
        | (db', inl e) => (db', inl e)
        | (db', inr a) => k a db'
        end.

Notation "'do!' x ':=' c 'in' k" := (mbind c (λ x, k))
  (at level 10, x name, c at level 100, k at level 200).
Notation "c ';;;' k" := (mbind c (λ _, k))
  (at level 100, k at level 200, right associativity).

(** [try: body except ...: handler]; a handler re-raises what it does not
    catch. *)
Definition try_except {A} (body : M A) (handler : exn → M A) : M A :=
  λ db, match body db with
        | (db', inl e) => handler e db'
        | r => r
        end.

Fixpoint for_each {A} (l : list A) (body : A → M unit) : M unit :=
  match l with
  | [] => mret tt
  | x :: rest => body x ;;; for_each rest body
  end.

(** ** The ORM calls of the serializers *)

(** The key the store gives the next [Recipe] row: one past the largest. *)
Definition next_pk (table : gmap Z Recipe) : Z :=
  1 + foldr Z.max 0 (elements (dom table)).

(** [Recipe.objects.create] on the validated scalar fields; the view adds
    [author]. *)
Definition objects_create (author : Z) (data : recipe_fields) : M Z :=
  λ db,
    let pk := next_pk (recipe_table db) in
    let row := mkRecipe author (f_name data) (f_image data) (f_text data)
                 (f_cooking_time data) in
    (set_recipe_table (λ t, <[pk := row]> t) db, ret pk).

(** [IntegerField.get_prep_value]: [None] stays [None], anything else goes
    through [int(value)]. *)
Definition get_prep_value `{PyBuiltins} (value : pyval) : result (option Z) :=
  match value with
  | PyNone => ret None
  | _ => let! n := py_int value in ret (Some n)
  end.

(** The first loop of the related manager's [add]: every object is
    converted, in order, before the store is touched. *)
Fixpoint get_target_ids `{PyBuiltins} (objs : list pyval)
    : result (list (option Z)) :=
  match objs with
  | [] => ret []
  | obj :: rest =>
      let! target := get_prep_value obj in
      let! targets := get_target_ids rest in
      ret (target :: targets)
  end.

(** The integers the key column of [Tag] can hold. The model that declares
    the column and the settings that choose the database engine are not
    among the sources, so the range is taken as given. *)
Class KeyColumn := { in_range : Z → bool }.

(** A target can be written into the tag column of the through table when
    it is [NULL] or an integer of the column's range. *)
Definition fits `{KeyColumn} (target : option Z) : bool :=
  match target with
  | Some tag => in_range tag
  | None => true
  end.

(** A through row can be inserted when its tag is a row of [Tag]; a [NULL]
    tag never can. *)
Definition insertable (db : database) (target : option Z) : bool :=
  match target with
  | Some tag => bool_decide (tag ∈ dom (tag_table db))
  | None => false
  end.

Definition already_linked (db : database) (recipe : Z) (target : option Z)
    : bool :=
  match target with
  | Some tag => bool_decide ((recipe, tag) ∈ recipe_tags db)
  | None => false
  end.

Definition through_rows (recipe : Z) (targets : list (option Z))
    : gset (Z * Z) :=
  list_to_set (omap (λ target, pair recipe <$> target) targets).

(** [recipe.tags.add] on the unpacked [tags]: a conversion error leaves the
    store alone; so does a target outside the range of the column, which
    the engine refuses before it looks at any row ([DataError]); the
    targets not yet linked are inserted in one atomic block, which raises
    [IntegrityError] and inserts nothing when one of them is no [Tag]
    row. *)
Definition tags_add `{PyBuiltins} `{KeyColumn} (recipe : Z)
    (objs : list pyval) : M unit :=
  λ db,
    match get_target_ids objs with
    | inl e => (db, raise e)
    | inr targets =>
        if forallb fits targets
        then
          let missing := filter (λ t, already_linked db recipe t = false)
                           targets in
          if forallb (insertable db) missing
          then (set_recipe_tags
                  (λ rows, rows ∪ through_rows recipe missing) db,
                ret tt)
          else (db, raise IntegrityError)
        else (db, raise DataError)
    end.

(** [instance.tags.clear()] *)
Definition tags_clear (recipe : Z) : M unit :=
  λ db, (set_recipe_tags (filter (λ row, row.1 ≠ recipe)) db, ret tt).

(** [instance.ingredients.clear()]: the rows of [IngredientRecipe], through
    which a recipe has its ingredients, are deleted for this recipe. *)
Definition ingredients_clear (recipe : Z) : M unit :=
  λ db, (set_ingredient_recipe (filter (λ row, ir_recipe row ≠ recipe)) db,
         ret tt).

(** [recipe.ingred_recipes.create(recipe=, ingredient=, amount=)] *)
Definition ingred_recipes_create (recipe : Z) (item : ingred_item) : M unit :=
  λ db,
    (set_ingredient_recipe
       (λ rows, rows ++ [mkIngredientRecipe recipe
                           (ingredient_id (ingredient item)) (amount item)])
       db,
     ret tt).

(** [recipe.delete()]: the row goes, and with it the rows that point to it. *)
Definition recipe_delete (recipe : Z) : M unit :=
  λ db,
    (mkDatabase (tag_table db)
       (delete recipe (recipe_table db))
       (filter (λ row, row.1 ≠ recipe) (recipe_tags db))
       (filter (λ row, ir_recipe row ≠ recipe) (ingredient_recipe db))
       (filter (λ row, row.2 ≠ recipe) (favourite db))
       (filter (λ row, row.2 ≠ recipe) (carts db))
       (subscriptions db),
     ret tt).

(** A [Recipe] object in memory: its key and the fields read from its row. *)
Record recipe_instance : Set := mkInstance {
  pk : Z;
  fields : Recipe
}.

(** [ModelSerializer.update]: the remaining attributes are set on the
    instance, which is then saved. *)
Definition model_update (instance : recipe_instance) (data : recipe_fields)
    : M recipe_instance :=
  λ db,
    let row := mkRecipe (author (fields instance)) (f_name data)
                 (f_image data) (f_text data) (f_cooking_time data) in
    (set_recipe_table (λ t, <[pk instance := row]> t) db,
     ret (mkInstance (pk instance) row)).

(** The viewer of a request. *)
Inductive request_user : Set :=
  | AnonymousUser
  | User (user_pk : Z).

Definition is_authenticated (user : request_user) : bool :=
  match user with
  | AnonymousUser => false
  | User _ => true
  end.

(** [a and b]: [b] is evaluated only when [a] is true. *)
Definition py_and (a : bool) (b : result bool) : result bool :=
  if a then b else ret false.

(** [related.filter(user=user).exists()] over rows [(user, recipe)]: the
    lookup needs a user with a key. *)
Definition filter_user_exists (rows : gset (Z * Z)) (obj : Z)
    (user : request_user) : result bool :=
  match user with
  | AnonymousUser => raise TypeError
  | User u => ret (bool_decide ((u, obj) ∈ rows))
  end.

Inductive http_method : Set := GET | POST | PUT | PATCH | DELETE.

Global Instance http_method_eq_dec : EqDecision http_method.
Proof. solve_decision. Defined.

(** ** [UserSerializer] *)

Module UserSerializer.

(** [user.subscriptions.filter(user=obj).exists()]: only a signed-in user
    has the related manager [subscriptions] (rows where it is the
    follower). *)
Definition subscriptions_filter_exists (db : database)
    (user : request_user) (obj : Z) : result bool :=
  match user with
  | AnonymousUser => raise AttributeError
  | User u => ret (bool_decide ((obj, u) ∈ subscriptions db))
  end.

Definition get_is_subscribed (db : database) (user : request_user)
    (obj : Z) : result bool :=
  let! c := py_and (is_authenticated user)
              (subscriptions_filter_exists db user obj) in
  if c then ret true else ret false.

End UserSerializer.

(** ** [RecipeSerializer] *)

Module RecipeSerializer.

(** The [for ingred_recipe in value] loop of [validate_ingredients]: an id
    still in [unique_ingredients] is discarded from it, any other entry has
    its name appended to [err_obj]. *)
Fixpoint repeats_loop (value : list ingred_item)
    (unique_ingredients : gset Z) (err_obj : list string) : list string :=
  match value with
  | [] => err_obj
  | ingred_recipe :: rest =>
      let ingredient := ingredient ingred_recipe in
      if decide (ingredient_id ingredient ∈ unique_ingredients)
      then repeats_loop rest
             (unique_ingredients ∖ {[ingredient_id ingredient]}) err_obj
      else repeats_loop rest unique_ingredients
             (err_obj ++ [ingredient_name ingredient])
  end.

Definition ingredient_ids (value : list ingred_item) : list Z :=
  (λ obj, ingredient_id (ingredient obj)) <$> value.

Definition validate_ingredients (value : list ingred_item)
    : result (list ingred_item) :=
  let ingredients := ingredient_ids value in
  let unique_ingredients : gset Z := list_to_set ingredients in
  if decide (length ingredients ≠ size unique_ingredients)
  then raise (ValidationError k_detail
                (msg_duplicates (repeats_loop value unique_ingredients [])))
  else ret value.

Definition get_is_favorited (db : database) (user : request_user)
    (obj : Z) : result bool :=
  let! c := py_and (is_authenticated user)
              (filter_user_exists (favourite db) obj user) in
  if c then ret true else ret false.

Definition get_is_in_shopping_cart (db : database) (user : request_user)
    (obj : Z) : result bool :=
  let! c := py_and (is_authenticated user)
              (filter_user_exists (carts db) obj user) in
  if c then ret true else ret false.

(** [[type(tag) for tag in tags if type(tag) is not int]] *)
Definition non_int_types (tags : list pyval) : list pytype :=
  type_of <$> filter (λ tag, type_of tag ≠ t_int) tags.

(** [tags] is the list of the payload: [to_internal_value] wraps each of
    its values [v] as [{'id': v}] in [initial_data], and [create] and
    [update] read the ['id'] of each back. *)
Definition create `{PyBuiltins} `{KeyColumn} (author : Z)
    (validated_data : recipe_fields)
    (ingredients : list ingred_item) (tags : list pyval) : M Z :=
  do! recipe := objects_create author validated_data in
  (try_except (tags_add recipe tags)
     (λ e, match e with
           | IntegrityError =>
               recipe_delete recipe ;;;
               mraise (NotFound k_tags msg_param_not_found)
           | ValueError =>
               recipe_delete recipe ;;;
               mraise (ValidationError k_tags
                         (msg_expected_int (non_int_types tags)))
           | _ => mraise e
           end)) ;;;
  (for_each ingredients (ingred_recipes_create recipe)) ;;;
  mret recipe.

Definition update `{PyBuiltins} `{KeyColumn} (instance : recipe_instance)
    (validated_data : recipe_fields)
    (ingredients : list ingred_item) (tags : list pyval)
    : M recipe_instance :=
  tags_clear (pk instance) ;;;
  (try_except (tags_add (pk instance) tags)
     (λ e, match e with
           | IntegrityError =>
               mraise (NotFound k_tags msg_param_not_found)
           | ValueError =>
               mraise (ValidationError k_tags
                         (msg_expected_int (non_int_types tags)))
           | _ => mraise e
           end)) ;;;
  ingredients_clear (pk instance) ;;;
  (for_each ingredients (ingred_recipes_create (pk instance))) ;;;
  model_update instance validated_data.





End RecipeSerializer.

(** ** [FavouriteSerializer] *)

Module FavouriteSerializer.

Definition validate (db : database) (method : http_method)
    (user recipe : Z) : result (Z * Z) :=
  let is_exist := bool_decide ((user, recipe) ∈ favourite db) in
  if bool_decide (method = POST) && is_exist
  then raise (ValidationError k_errors msg_already_subscribed)
  else if bool_decide (method = DELETE) && negb is_exist
  then raise (ValidationError k_errors msg_not_subscribed)
  else ret (user, recipe).

End FavouriteSerializer.

(** ** [SubscriptionsSerializer] *)

Module SubscriptionsSerializer.

Definition validate (db : database) (method : http_method)
    (user follower : Z) : result (Z * Z) :=
  let is_exist := bool_decide ((user, follower) ∈ subscriptions db) in
  if bool_decide (method = POST) && is_exist
  then raise (ValidationError k_errors msg_already_subscribed)
  else if bool_decide (method = DELETE) && negb is_exist
  then raise (ValidationError k_errors msg_not_subscribed)
  else if bool_decide (user = follower)
  then raise (ValidationError k_errors msg_self_subscribe)
  else ret (user, follower).

End SubscriptionsSerializer.

(** ** [UserSubscriptionsSerializer] *)

(** What [FavouriteRecipesSerializer] shows of a recipe. *)
Record recipe_summary : Set := mkSummary {
  s_id : Z;
  s_name : string;
  s_image : string;
  s_cooking_time : Z
}.

Definition summarise (r : Z * Recipe) : recipe_summary :=
  mkSummary r.1 (name r.2) (image r.2) (cooking_time r.2).

(** [obj.recipes.all()]: the rows of [Recipe] whose author is [obj], in the
    order in which the table lists them. *)
Definition recipes_all (db : database) (obj : Z) : list (Z * Recipe) :=
  filter (λ r, author r.2 = obj) (map_to_list (recipe_table db)).

(** [queryset[:limit]]: a queryset refuses a negative bound. *)
Definition slice_to {A} (limit : Z) (rows : list A) : result (list A) :=
  if decide (limit < 0) then raise ValueError
  else ret (take (Z.to_nat limit) rows).

Module UserSubscriptionsSerializer.

(** [int(query_params.get('recipes_limit'))] under [except Exception]:
    a missing parameter ([int(None)]) and an unparsable one both leave
    [limit = None]. *)
Definition parse_limit `{PyBuiltins} (recipes_limit : option string)
    : option Z :=
  match recipes_limit with
  | Some s => int_of_str s
  | None => None
  end.

(** [if limit:] is false for [None] and for [0]. *)
Definition truthy (limit : option Z) : bool :=
  match limit with
  | Some n => negb (bool_decide (n = 0))
  | None => false
  end.

Definition get_recipes `{PyBuiltins} (db : database)
    (recipes_limit : option string) (obj : Z)
    : result (list recipe_summary) :=
  let limit := parse_limit recipes_limit in
  let recipes := recipes_all db obj in
  let! recipes :=
    (if truthy limit then slice_to (default 0 limit) recipes
     else ret recipes) in
  ret (summarise <$> recipes).

Definition get_recipes_count (db : database) (obj : Z) : nat :=
  length (recipes_all db obj).

End UserSubscriptionsSerializer.

(** ** Parts modelled from the specification *)

Module Cart.

(** Modelled from the spec: the validator of cart rows, which is not among
    the sources; section 4.3 gives the cart the policy of the favourites:
    adding an existing pair and removing an absent one both fail. *)
Definition validate (db : database) (method : http_method)
    (user recipe : Z) : result (Z * Z) :=
  let is_exist := bool_decide ((user, recipe) ∈ carts db) in
  if bool_decide (method = POST) && is_exist
  then raise (ValidationError k_errors msg_already_subscribed)
  else if bool_decide (method = DELETE) && negb is_exist
  then raise (ValidationError k_errors msg_not_subscribed)
  else ret (user, recipe).

(** Modelled from the spec: the view that handles a cart request, which is
    not among the sources: once validation passes, add creates the pair
    and remove deletes it. *)
Definition add (user recipe : Z) : M unit :=
  λ db,
    match validate db POST user recipe with
    | inl e => (db, raise e)
    | inr row => (set_carts (λ rows, rows ∪ {[row]}) db, ret tt)
    end.

(** Modelled from the spec: the removal half of the cart view, absent from
    the sources like the adding half. *)
Definition remove (user recipe : Z) : M unit :=
  λ db,
    match validate db DELETE user recipe with
    | inl e => (db, raise e)
    | inr row => (set_carts (λ rows, rows ∖ {[row]}) db, ret tt)
    end.

End Cart.

Module Favourite.

(** Modelled from the spec: the view that handles a favourite request,
    which is not among the sources: once [FavouriteSerializer.validate]
    passes, add creates the pair and remove deletes it. *)
Definition add (user recipe : Z) : M unit :=
  λ db,
    match FavouriteSerializer.validate db POST user recipe with
    | inl e => (db, raise e)
    | inr row => (set_favourite (λ rows, rows ∪ {[row]}) db, ret tt)
    end.

(** Modelled from the spec: the removal half of the favourite view, absent
    from the sources like the adding half. *)
Definition remove (user recipe : Z) : M unit :=
  λ db,
    match FavouriteSerializer.validate db DELETE user recipe with
    | inl e => (db, raise e)
    | inr row => (set_favourite (λ rows, rows ∖ {[row]}) db, ret tt)
    end.

End Favourite.

(** ** The duplicate policy in the words of the specification *)

(** The first occurrence of an id is kept; every later entry whose id was
    already seen is listed by name. *)
Fixpoint later_repeats (seen : list Z) (value : list ingred_item)
    : list string :=
  match value with
  | [] => []
  | obj :: rest =>
      if decide (ingredient_id (ingredient obj) ∈ seen)
      then ingredient_name (ingredient obj) :: later_repeats seen rest
      else later_repeats (ingredient_id (ingredient obj) :: seen) rest
  end.

(** ** A concrete store and interpreter for the examples *)

(** An [int] parser for the examples: it reads plain decimal digits, on
    which it agrees with Python's [int], and rejects everything else. *)
Fixpoint decimal_digits (s : string) (acc : Z) : option Z :=
  match s with
  | EmptyString => Some acc
  | String c rest =>
      let n := Z.of_N (Ascii.N_of_ascii c) in
      if bool_decide (48 ≤ n ≤ 57) then decimal_digits rest (10 * acc + (n - 48))
      else None
  end.

Definition decimal_builtins : PyBuiltins :=
  {| int_of_str s :=
       match s with
       | EmptyString => None
       | _ => decimal_digits s 0
       end |}.

(** The key column of the examples: 64-bit signed integers. It is the
    instance that a closed term takes when none is in its context. *)
Global Instance bigint_column : KeyColumn :=
  {| in_range n := bool_decide (-2 ^ 63 ≤ n < 2 ^ 63) |}.

(** ** Serialising a recipe for a viewer *)

Record viewer_flags : Set := mkFlags {
  is_subscribed : bool;
  is_favorited : bool;
  is_in_shopping_cart : bool
}.

(** The method fields of [RecipeSerializer], evaluated in the order of
    [Meta.fields]: the nested [author] (with its [is_subscribed]), then
    [is_favorited], then [is_in_shopping_cart]. *)
Definition recipe_viewer_flags (db : database) (user : request_user)
    (obj : Z) (obj_author : Z) : result viewer_flags :=
  let! subscribed := UserSerializer.get_is_subscribed db user obj_author in
  let! favorited := RecipeSerializer.get_is_favorited db user obj in
  let! in_cart := RecipeSerializer.get_is_in_shopping_cart db user obj in
  ret (mkFlags subscribed favorited in_cart).

(** The rows that the loop over [ingredients] creates for a recipe. *)
Definition new_ingred_recipes (recipe : Z) (ingredients : list ingred_item)
    : list IngredientRecipe :=
  (λ item, mkIngredientRecipe recipe (ingredient_id (ingredient item))
             (amount item)) <$> ingredients.

(** The store a successful [update] leaves. *)
Definition updated (instance : recipe_instance) (data : recipe_fields)
    (ingredients : list ingred_item) (targets : list (option Z))
    (db : database) : database :=
  mkDatabase (tag_table db)
    (<[pk instance := mkRecipe (author (fields instance)) (f_name data)
                        (f_image data) (f_text data) (f_cooking_time data)]>
       (recipe_table db))
    (filter (λ row, row.1 ≠ pk instance) (recipe_tags db)
     ∪ through_rows (pk instance) targets)
    (filter (λ row, ir_recipe row ≠ pk instance) (ingredient_recipe db)
     ++ new_ingred_recipes (pk instance) ingredients)
    (favourite db) (carts db) (subscriptions db).

(** ** Stores the database engine can hold *)

(** Foreign keys: a row that points to a recipe points to a row of
    [Recipe]. *)
Definition referential_integrity (db : database) : Prop :=
  set_Forall (λ row, row.1 ∈ dom (recipe_table db)) (recipe_tags db)
  ∧ Forall (λ row, ir_recipe row ∈ dom (recipe_table db))
      (ingredient_recipe db)
  ∧ set_Forall (λ row, row.2 ∈ dom (recipe_table db)) (favourite db)
  ∧ set_Forall (λ row, row.2 ∈ dom (recipe_table db)) (carts db).

Global Instance referential_integrity_dec db :
  Decision (referential_integrity db).
Proof. unfold referential_integrity. apply _. Defined.

(** The check constraint [author_cannot_subscribe_to_himself] of the
    [Subscriptions] model: no row has [user = follower]. *)
Definition author_cannot_subscribe_to_himself (db : database) : Prop :=
  set_Forall (λ row, row.1 ≠ row.2) (subscriptions db).

(** [int(value)] raises nothing on [value]. *)
Definition converts `{PyBuiltins} (value : pyval) : Prop :=
  match value with
  | PyInt _ | PyBool _ | PyFloat _ | PyNone => True
  | PyStr s => is_Some (int_of_str s)
  | PyList | PyDict | PyInfinity _ => False
  end.


Global Instance converts_dec `{PyBuiltins} value : Decision (converts value).
Proof. destruct value; simpl; apply _. Defined.

(** ** A concrete store for the examples *)

Definition tag_row : Tag := mkTag "breakfast" "#E26C2D" "breakfast".

(** Tags 1, 2, 3; recipe 7 of user 1 with tags 1 and 2 and two units of
    ingredient 5. *)
Definition sample_db : database :=
  mkDatabase
    (list_to_map [(1, tag_row); (2, tag_row); (3, tag_row)])
    (list_to_map [(7, mkRecipe 1 "omelette" "omelette.png" "beat, fry" 10)])
    (list_to_set [(7, 1); (7, 2)])
    [mkIngredientRecipe 7 5 2]
    ∅ ∅ ∅.

Definition sample_instance : recipe_instance :=
  mkInstance 7 (mkRecipe 1 "omelette" "omelette.png" "beat, fry" 10).

Definition sample_fields : recipe_fields :=
  mkFields "omelette" "omelette.png" "beat, fry, fold" 12.

(** A store of subscriptions, as rows (user, follower): user 2 follows
    user 1, and user 1 follows users 2 and 3. *)
Definition followers_db : database :=
  mkDatabase ∅ ∅ ∅ [] ∅ ∅ (list_to_set [(1, 2); (2, 1); (3, 1)]).

(** User 1 is the author of recipes 7 and 8, user 2 of recipe 9. *)
Definition three_recipes_db : database :=
  mkDatabase ∅
    (list_to_map [(7, mkRecipe 1 "omelette" "omelette.png" "beat, fry" 10);
                  (8, mkRecipe 1 "porridge" "porridge.png" "boil" 15);
                  (9, mkRecipe 2 "toast" "toast.png" "toast" 3)])
    ∅ [] ∅ ∅ ∅.

Definition flour : Ingredient := mkIngredient 5 "flour" "g".
Definition egg : Ingredient := mkIngredient 6 "egg" "pc".

(** The scenario of section 8: recipe 7 gets tags [3] and four units of
    ingredient 5. *)
Definition sample_update : database * result recipe_instance :=
  RecipeSerializer.update (H:=decimal_builtins) sample_instance sample_fields
    [mkItem flour 4] [PyInt 3] sample_db.

(** The same update with a tag id that no [Tag] row has. *)
Definition sample_failed_update : database * result recipe_instance :=
  RecipeSerializer.update (H:=decimal_builtins) sample_instance sample_fields
    [mkItem flour 4] [PyInt 99] sample_db.


(** ** The store after a successful create *)

(** The new row under the next key, the through rows of the tags not yet
    linked to that key, and one [IngredientRecipe] row per item. *)
Definition created_store (user : Z) (data : recipe_fields)
    (ingredients : list ingred_item) (missing : list (option Z))
    (db : database) : database :=
  mkDatabase (tag_table db)
    (<[next_pk (recipe_table db) :=
         mkRecipe user (f_name data) (f_image data) (f_text data)
           (f_cooking_time data)]> (recipe_table db))
    (recipe_tags db ∪ through_rows (next_pk (recipe_table db)) missing)
    (ingredient_recipe db
     ++ new_ingred_recipes (next_pk (recipe_table db)) ingredients)
    (favourite db) (carts db) (subscriptions db).

(** User 2 creates a recipe with tags 1 and 3, flour and an egg. *)
Definition sample_create : database * result Z :=
  RecipeSerializer.create (H:=decimal_builtins) 2 sample_fields
    [mkItem flour 4; mkItem egg 1] [PyInt 1; PyInt 3] sample_db.

(** A create whose tag list holds a JSON array. *)
Definition sample_create_list : database * result Z :=
  RecipeSerializer.create (H:=decimal_builtins) 2 sample_fields
    [mkItem flour 4] [PyInt 1; PyList] sample_db.





(** ** [UserViewSet.me] *)

Module UserViewSet.

(** The [is_subscribed] field of the answer of [me]: the action is open to
    signed-in users only, and serializes [request.user] for itself. *)
Definition me (db : database) (user_pk : Z) : result bool :=
  UserSerializer.get_is_subscribed db (User user_pk) user_pk.

End UserViewSet.

(** An [int] parser for the examples that also reads a leading minus sign,
    as Python's [int] does. *)
Definition signed_builtins : PyBuiltins :=
  {| int_of_str s :=
       match s with
       | EmptyString => None
       | String c rest =>
           if bool_decide (Ascii.N_of_ascii c = 45%N)
           then match rest with
                | EmptyString => None
                | _ => Z.opp <$> decimal_digits rest 0
                end
           else decimal_digits s 0
       end |}.

(** ** [RecipeViewSet.destroy] *)

(** How a view answers, or the exception it lets through. *)
Inductive response : Set :=
  | HTTP_204_NO_CONTENT
  | HTTP_404_NOT_FOUND
  | PermissionRefused      (* 403, or 401 for a request without credentials *)
  | Uncaught (e : exn).

Module RecipeViewSet.

(** [destroy]: the recipe is looked up with Django's [get_object_or_404]
    under the [pk] of the URL (a string, converted by [int]; a string that
    [int] rejects makes the lookup raise [ValueError]); its tags and
    ingredients are cleared; then the [destroy] of the framework looks the
    object up again, checks the object permission, deletes the row and
    answers 204. The permission class of the view set,
    [IsResponsibleUserOrReadOnly], is not among the sources: its object
    check is the parameter [has_object_permission]. *)
Definition destroy `{PyBuiltins}
    (has_object_permission : request_user → Z → Recipe → bool)
    (user : request_user) (pk_kwarg : string)
    : database → database * response :=
  λ db,
    match int_of_str pk_kwarg with
    | None => (db, Uncaught ValueError)
    | Some recipe =>
        match recipe_table db !! recipe with
        | None => (db, HTTP_404_NOT_FOUND)
        | Some _ =>
            let db1 := (tags_clear recipe db).1 in
            let db2 := (ingredients_clear recipe db1).1 in
            match recipe_table db2 !! recipe with
            | None => (db2, HTTP_404_NOT_FOUND)
            | Some instance =>
                if has_object_permission user recipe instance
                then ((recipe_delete recipe db2).1, HTTP_204_NO_CONTENT)
                else (db2, PermissionRefused)
            end
        end
    end.

End RecipeViewSet.

(** An object permission for the examples: only the author may write. *)
Definition author_only (user : request_user) (recipe : Z) (row : Recipe)
    : bool :=
  match user with
  | AnonymousUser => false
  | User u => bool_decide (u = author row)
  end.

(** ** [Base64ImageField] *)

(** A file as the field hands it on: content and name. *)
Record content_file : Set := mkContentFile {
  file_content : string;
  file_name : string
}.

(** What the field receives: a string of the payload, or an uploaded
    file. *)
Inductive image_data : Set :=
  | StrData (s : string)
  | FileData (f : content_file).

(** [c in s] for a character. *)
Fixpoint occurs (c : Ascii.ascii) (s : string) : bool :=
  match s with
  | EmptyString => false
  | String c' rest => bool_decide (c = c') || occurs c rest
  end.

(** [s.split(sep)] for a non-empty [sep]: the string is cut at the
    occurrences of [sep] found from left to right, an occurrence starting
    where the one before has ended at the earliest. [skip] counts the
    characters of an occurrence still to pass over, [cur] is the piece
    read so far. *)
Fixpoint split_go (sep : string) (skip : nat) (cur s : string)
    : list string :=
  match s with
  | EmptyString => [cur]
  | String c rest =>
      match skip with
      | S k => split_go sep k cur rest
      | O =>
          if String.prefix sep s
          then cur :: split_go sep (String.length sep - 1) EmptyString rest
          else split_go sep 0 (cur +:+ String c EmptyString) rest
      end
  end.

Definition py_split (sep s : string) : list string :=
  split_go sep 0 EmptyString s.

(** The characters 59 and 47. *)
Definition semicolon : Ascii.ascii := Ascii.ascii_of_nat 59.
Definition slash : Ascii.ascii := Ascii.ascii_of_nat 47.

Module Base64ImageField.

(** [to_internal_value]: [base64.b64decode] and the [to_internal_value] of
    [ImageField] are the library's, taken as given; unpacking the result of
    [split] into two names raises [ValueError] unless it has exactly two
    items; [parts[-1]] is the last item. *)
Definition to_internal_value {A} (b64decode : string → result string)
    (super_to_internal_value : image_data → result A) (data : image_data)
    : result A :=
  match data with
  | StrData s =>
      if String.prefix "data:image" s
      then match py_split ";base64," s with
           | [format; imgstr] =>
               let ext := List.last (py_split "/" format) EmptyString in
               let! decoded := b64decode imgstr in
               super_to_internal_value
                 (FileData (mkContentFile decoded ("temp." +:+ ext)))
           | _ => raise ValueError
           end
      else super_to_internal_value data
  | FileData _ => super_to_internal_value data
  end.

End Base64ImageField.

(** * Properties *)

(** ** The ingredient validator *)

Section validate_ingredients_facts.

Import RecipeSerializer.
Implicit Types (value : list ingred_item) (l seen : list Z).

Lemma size_list_to_set_le l :
  (size (list_to_set (C:=gset Z) l) ≤ length l)%nat.
Proof.
  induction l as [|x l IH].
  - rewrite list_to_set_nil, size_empty. done.
  - rewrite list_to_set_cons. simpl.
    rewrite size_union_alt, size_singleton.
    assert (size (list_to_set (C:=gset Z) l ∖ {[x]})
            ≤ size (list_to_set (C:=gset Z) l))%nat.
    { apply subseteq_size. set_solver. }
    lia.
Qed.

Lemma size_list_to_set_NoDup l :
  size (list_to_set (C:=gset Z) l) = length l ↔ NoDup l.
Proof.
  split; [|apply size_list_to_set].
  induction l as [|x l IH]; intros Hsz; [constructor|].
  rewrite list_to_set_cons in Hsz. simpl in Hsz.
  destruct (decide (x ∈ l)) as [Hin|Hnin].
  - exfalso.
    assert ({[x]} ∪ list_to_set l = list_to_set (C:=gset Z) l) as Heq
      by set_solver.
    rewrite Heq in Hsz. pose proof (size_list_to_set_le l). lia.
  - constructor; [done|]. apply IH.
    rewrite size_union in Hsz by set_solver.
    rewrite size_singleton in Hsz. lia.
Qed.

(** The loop over the shrinking set computes the later repeats. *)
Lemma repeats_loop_later_repeats value (U : gset Z) seen err_obj :
  (∀ x, x ∈ ingredient_ids value → x ∈ U) →
  repeats_loop value (U ∖ list_to_set seen) err_obj
  = err_obj ++ later_repeats seen value.
Proof.
  revert seen err_obj.
  induction value as [|obj rest IH]; intros seen err_obj HU; simpl.
  - by rewrite app_nil_r.
  - assert (ingredient_id (ingredient obj) ∈ U) as HinU
      by (apply HU; unfold ingredient_ids; set_solver).
    assert (∀ x, x ∈ ingredient_ids rest → x ∈ U) as HU'
      by (intros y Hy; apply HU; unfold ingredient_ids in *; set_solver).
    destruct (decide (ingredient_id (ingredient obj) ∈ seen)) as [Hs|Hs].
    + rewrite decide_False by set_solver.
      rewrite IH by done. by rewrite <-app_assoc.
    + rewrite decide_True by set_solver.
      replace (U ∖ list_to_set seen ∖ {[ingredient_id (ingredient obj)]})
        with (U ∖ list_to_set (C:=gset Z)
                    (ingredient_id (ingredient obj) :: seen))
        by set_solver.
      by apply IH.
Qed.

Lemma validate_ingredients_unique value :
  NoDup (ingredient_ids value) → validate_ingredients value = ret value.
Proof.
  intros Hnd. unfold validate_ingredients.
  rewrite decide_False; [done|].
  rewrite size_list_to_set by done. auto.
Qed.

Lemma validate_ingredients_repeated value :
  ¬ NoDup (ingredient_ids value) →
  validate_ingredients value
  = raise (ValidationError k_detail
             (msg_duplicates (later_repeats [] value))).
Proof.
  intros Hnd. unfold validate_ingredients.
  rewrite decide_True.
  - pose proof (repeats_loop_later_repeats value
                  (list_to_set (ingredient_ids value)) [] []) as H.
    simpl in H.
    replace (list_to_set (ingredient_ids value) ∖ ∅)
      with (list_to_set (C:=gset Z) (ingredient_ids value)) in H
      by set_solver.
    rewrite H; [done|]. set_solver.
  - intros Heq. apply Hnd, size_list_to_set_NoDup. done.
Qed.

Lemma succeeds_validate_ingredients value :
  succeeds (validate_ingredients value)
  = bool_decide (NoDup (ingredient_ids value)).
Proof.
  destruct (decide (NoDup (ingredient_ids value))) as [Hnd|Hnd].
  - rewrite validate_ingredients_unique, bool_decide_eq_true_2; done.
  - rewrite validate_ingredients_repeated, bool_decide_eq_false_2; done.
Qed.

(** When nothing is listed, no id repeats and none had been seen. *)
Lemma later_repeats_nil seen value :
  later_repeats seen value = [] →
  NoDup (ingredient_ids value)
  ∧ ∀ x, x ∈ ingredient_ids value → x ∉ seen.
Proof.
  revert seen. induction value as [|obj rest IH]; intros seen; simpl.
  - intros _. split; [constructor|]. intros x Hx. by apply elem_of_nil in Hx.
  - destruct (decide (ingredient_id (ingredient obj) ∈ seen)) as [|Hs];
      [done|].
    intros Hnil. destruct (IH _ Hnil) as [Hnd Hout]. split.
    + constructor; [|done]. intros Hin. apply (Hout _ Hin). set_solver.
    + intros x [->|Hx]%elem_of_cons; [done|].
      specialize (Hout _ Hx). set_solver.
Qed.

Lemma later_repeats_ext seen value value' :
  ingredient <$> value = ingredient <$> value' →
  later_repeats seen value = later_repeats seen value'.
Proof.
  revert seen value'.
  induction value as [|obj rest IH]; intros seen [|obj' rest'] Heq;
    simpl in *; try done.
  injection Heq as Hobj Hrest. rewrite Hobj.
  destruct (decide _); [f_equal|]; by apply IH.
Qed.

Lemma ingredient_ids_ext value value' :
  ingredient <$> value = ingredient <$> value' →
  ingredient_ids value = ingredient_ids value'.
Proof.
  intros Heq. unfold ingredient_ids.
  change (λ obj, ingredient_id (ingredient obj))
    with (ingredient_id ∘ ingredient).
  by rewrite !list_fmap_compose, Heq.
Qed.

End validate_ingredients_facts.

Section validate_ingredients_claims.

Import RecipeSerializer.

(** C3: a list of ingredients in which some id occurs more than once is
    rejected by [validate_ingredients] with a [ValidationError] whose
    message lists, by name, the later repeats (the first occurrence of
    every id is kept and not listed), and that list is not empty; a list
    whose ids are pairwise distinct passes. *)
Theorem validate_ingredients_duplicates (value : list ingred_item) :
  (NoDup (ingredient_ids value) → validate_ingredients value = ret value)
  ∧ (¬ NoDup (ingredient_ids value) →
     validate_ingredients value
     = raise (ValidationError k_detail
                (msg_duplicates (later_repeats [] value)))
     ∧ later_repeats [] value ≠ []).
Proof.
  split; [apply validate_ingredients_unique|].
  intros Hnd. split; [by apply validate_ingredients_repeated|].
  intros Hnil. by apply Hnd, (later_repeats_nil []).
Qed.

Lemma validate_ingredients_duplicates_witness :
  validate_ingredients [mkItem flour 2; mkItem egg 1]
  = ret [mkItem flour 2; mkItem egg 1]
  ∧ validate_ingredients
      [mkItem flour 2; mkItem egg 1; mkItem flour 3; mkItem flour 9]
    = raise (ValidationError k_detail (msg_duplicates ["flour"; "flour"])).
Proof.
  split.
  - apply (proj1 (validate_ingredients_duplicates _)).
    apply (bool_decide_unpack _). vm_compute. exact I.
  - refine (proj1 (proj2 (validate_ingredients_duplicates _) _)).
    apply (bool_decide_unpack _). vm_compute. exact I.
Defined.

(** C10: on a list whose ingredient ids are pairwise distinct the
    validator is the identity and raises nothing; whether it passes depends
    only on the multiset of ids; and two lists with the same ingredients in
    the same order, whatever their amounts, raise the same error. *)
Theorem validate_ingredients_identity (value value' : list ingred_item) :
  (NoDup (ingredient_ids value) → validate_ingredients value = ret value)
  ∧ (ingredient_ids value ≡ₚ ingredient_ids value' →
     succeeds (validate_ingredients value)
     = succeeds (validate_ingredients value'))
  ∧ (ingredient <$> value = ingredient <$> value' →
     ∀ e, validate_ingredients value = raise e →
          validate_ingredients value' = raise e).
Proof.
  split; [apply validate_ingredients_unique|]. split.
  - intros Hperm. rewrite !succeeds_validate_ingredients.
    apply bool_decide_ext. by rewrite Hperm.
  - intros Heq e He.
    destruct (decide (NoDup (ingredient_ids value))) as [Hnd|Hnd].
    + by rewrite validate_ingredients_unique in He.
    + rewrite validate_ingredients_repeated in He by done.
      rewrite validate_ingredients_repeated
        by (by rewrite <-(ingredient_ids_ext _ _ Heq)).
      by rewrite <-(later_repeats_ext _ _ _ Heq).
Qed.

Lemma validate_ingredients_identity_witness :
  validate_ingredients [mkItem flour 2; mkItem egg 1]
  = ret [mkItem flour 2; mkItem egg 1]
  ∧ succeeds (validate_ingredients [mkItem flour 2; mkItem egg 1])
    = succeeds (validate_ingredients [mkItem egg 7; mkItem flour 4])
  ∧ validate_ingredients [mkItem flour 8; mkItem flour 1]
    = raise (ValidationError k_detail (msg_duplicates ["flour"])).
Proof.
  split; [|split].
  - apply (proj1 (validate_ingredients_identity _ [])).
    apply (bool_decide_unpack _). vm_compute. exact I.
  - apply (proj1 (proj2 (validate_ingredients_identity _ _))).
    simpl. apply Permutation_swap.
  - apply (proj2 (proj2 (validate_ingredients_identity
                           [mkItem flour 2; mkItem flour 3] _))
             eq_refl).
    vm_compute. reflexivity.
Defined.

End validate_ingredients_claims.

(** ** The association validators *)

Section validators.

Implicit Types (db : database) (user recipe follower : Z).

Lemma validator_post (is_exist : bool) {A} (e e' : exn) (k : result A) :
  (if bool_decide (POST = POST) && is_exist then raise e
   else if bool_decide (POST = DELETE) && negb is_exist then raise e'
   else k)
  = if is_exist then raise e else k.
Proof. by destruct is_exist. Qed.

Lemma validator_delete (is_exist : bool) {A} (e e' : exn) (k : result A) :
  (if bool_decide (DELETE = POST) && is_exist then raise e
   else if bool_decide (DELETE = DELETE) && negb is_exist then raise e'
   else k)
  = if is_exist then k else raise e'.
Proof. by destruct is_exist. Qed.



Lemma favourite_validate_post db user recipe :
  FavouriteSerializer.validate db POST user recipe
  = (if bool_decide ((user, recipe) ∈ favourite db)
     then raise (ValidationError k_errors msg_already_subscribed)
     else ret (user, recipe)).
Proof.
  unfold FavouriteSerializer.validate.
  by destruct (bool_decide ((user, recipe) ∈ favourite db)).
Qed.

Lemma favourite_validate_delete db user recipe :
  FavouriteSerializer.validate db DELETE user recipe
  = (if bool_decide ((user, recipe) ∈ favourite db)
     then ret (user, recipe)
     else raise (ValidationError k_errors msg_not_subscribed)).
Proof.
  unfold FavouriteSerializer.validate.
  by destruct (bool_decide ((user, recipe) ∈ favourite db)).
Qed.

Lemma cart_validate_post db user recipe :
  Cart.validate db POST user recipe
  = (if bool_decide ((user, recipe) ∈ carts db)
     then raise (ValidationError k_errors msg_already_subscribed)
     else ret (user, recipe)).
Proof.
  unfold Cart.validate.
  by destruct (bool_decide ((user, recipe) ∈ carts db)).
Qed.

Lemma cart_validate_delete db user recipe :
  Cart.validate db DELETE user recipe
  = (if bool_decide ((user, recipe) ∈ carts db)
     then ret (user, recipe)
     else raise (ValidationError k_errors msg_not_subscribed)).
Proof.
  unfold Cart.validate.
  by destruct (bool_decide ((user, recipe) ∈ carts db)).
Qed.

(** Whatever an add answers, the pair is in the store afterwards. *)
Lemma favourite_add_elem db user recipe :
  (user, recipe) ∈ favourite (Favourite.add user recipe db).1.
Proof.
  unfold Favourite.add. rewrite favourite_validate_post.
  case_bool_decide; cbn; [done|]. set_solver.
Qed.

Lemma cart_add_elem db user recipe :
  (user, recipe) ∈ carts (Cart.add user recipe db).1.
Proof.
  unfold Cart.add. rewrite cart_validate_post.
  case_bool_decide; cbn; [done|]. set_solver.
Qed.

(** C7: adding a favourite fails with the already-message exactly when the
    pair exists and passes otherwise; removing fails with the not-message
    exactly when the pair does not exist and passes otherwise; the cart
    behaves alike; hence an add after an add of the same pair fails, and
    so does the removal of a pair that is not there. *)
Theorem favourite_cart_add_remove db user recipe :
  FavouriteSerializer.validate db POST user recipe
  = (if bool_decide ((user, recipe) ∈ favourite db)
     then raise (ValidationError k_errors msg_already_subscribed)
     else ret (user, recipe))
  ∧ FavouriteSerializer.validate db DELETE user recipe
    = (if bool_decide ((user, recipe) ∈ favourite db)
       then ret (user, recipe)
       else raise (ValidationError k_errors msg_not_subscribed))
  ∧ Cart.validate db POST user recipe
    = (if bool_decide ((user, recipe) ∈ carts db)
       then raise (ValidationError k_errors msg_already_subscribed)
       else ret (user, recipe))
  ∧ Cart.validate db DELETE user recipe
    = (if bool_decide ((user, recipe) ∈ carts db)
       then ret (user, recipe)
       else raise (ValidationError k_errors msg_not_subscribed))
  ∧ (Favourite.add user recipe (Favourite.add user recipe db).1).2
    = raise (ValidationError k_errors msg_already_subscribed)
  ∧ (Cart.add user recipe (Cart.add user recipe db).1).2
    = raise (ValidationError k_errors msg_already_subscribed)
  ∧ (Favourite.remove user recipe db).2
    = (if bool_decide ((user, recipe) ∈ favourite db) then ret tt
       else raise (ValidationError k_errors msg_not_subscribed))
  ∧ (Cart.remove user recipe db).2
    = (if bool_decide ((user, recipe) ∈ carts db) then ret tt
       else raise (ValidationError k_errors msg_not_subscribed)).
Proof.
  split; [apply favourite_validate_post|].
  split; [apply favourite_validate_delete|].
  split; [apply cart_validate_post|].
  split; [apply cart_validate_delete|].
  split; [|split; [|split]].
  - pose proof (favourite_add_elem db user recipe) as Hin.
    unfold Favourite.add at 1. rewrite favourite_validate_post.
    by rewrite bool_decide_eq_true_2.
  - pose proof (cart_add_elem db user recipe) as Hin.
    unfold Cart.add at 1. rewrite cart_validate_post.
    by rewrite bool_decide_eq_true_2.
  - unfold Favourite.remove. rewrite favourite_validate_delete.
    by case_bool_decide.
  - unfold Cart.remove. rewrite cart_validate_delete.
    by case_bool_decide.
Qed.

End validators.

(** ** The viewer-relative flags *)

(** C9: for an anonymous viewer [is_favorited], [is_in_shopping_cart] and the
    author's [is_subscribed] are all computed, without an error, as false,
    whatever rows the store holds. *)
Theorem anonymous_viewer_flags (db : database) (obj obj_author : Z) :
  RecipeSerializer.get_is_favorited db AnonymousUser obj = ret false
  ∧ RecipeSerializer.get_is_in_shopping_cart db AnonymousUser obj = ret false
  ∧ UserSerializer.get_is_subscribed db AnonymousUser obj_author = ret false
  ∧ recipe_viewer_flags db AnonymousUser obj obj_author
    = ret (mkFlags false false false).
Proof. repeat split. Qed.


(** ** The recipes of a followed user *)

Section get_recipes_facts.

Context `{PyBuiltins}.
Import UserSubscriptionsSerializer.


End get_recipes_facts.



(** ** The store under the ORM calls *)

Section store_facts.

Implicit Types (db : database) (recipe : Z).

Lemma foldr_max_ge (l : list Z) (x : Z) : x ∈ l → x ≤ foldr Z.max 0 l.
Proof.
  induction l as [|y l IH]; simpl.
  - by intros Hx%elem_of_nil.
  - intros [->|Hx]%elem_of_cons; [lia|]. specialize (IH Hx). lia.
Qed.

(** The key of a new row is not in use. *)
Lemma next_pk_fresh (table : gmap Z Recipe) : next_pk table ∉ dom table.
Proof.
  intros Hin. apply elem_of_elements, foldr_max_ge in Hin.
  unfold next_pk in Hin. lia.
Qed.

Lemma gset_filter_all `{Countable A} (P : A → Prop) `{!∀ x, Decision (P x)}
    (X : gset A) :
  set_Forall P X → filter P X = X.
Proof.
  intros HP. apply set_eq. intros x. rewrite elem_of_filter.
  split; [by intros [_ ?]|]. intros Hx. split; [by apply HP|done].
Qed.

Lemma list_filter_all {A} (P : A → Prop) `{!∀ x, Decision (P x)}
    (l : list A) :
  Forall P l → filter P l = l.
Proof.
  induction 1 as [|x l Hx _ IH]; [done|].
  by rewrite filter_cons_True, IH.
Qed.

Lemma list_filter_none {A} (P : A → Prop) `{!∀ x, Decision (P x)}
    (l : list A) :
  Forall (λ x, ¬ P x) l → filter P l = [].
Proof.
  induction 1 as [|x l Hx _ IH]; [done|].
  by rewrite filter_cons_False.
Qed.

(** In a store that respects its foreign keys no row points to the key that
    the next recipe will get. *)
Lemma integrity_not_linked db target :
  referential_integrity db →
  already_linked db (next_pk (recipe_table db)) target = false.
Proof.
  intros (Htags & _). destruct target as [tag|]; [|done]. simpl.
  apply bool_decide_eq_false_2. intros Hin.
  by apply (next_pk_fresh (recipe_table db)), (Htags _ Hin).
Qed.

(** Creating a recipe row and deleting it again restores the store. *)
Lemma create_delete_restores db user data :
  referential_integrity db →
  (recipe_delete (next_pk (recipe_table db))
     (objects_create user data db).1).1 = db.
Proof.
  intros (Htags & Hingr & Hfav & Hcart).
  pose proof (next_pk_fresh (recipe_table db)) as Hfresh.
  destruct db as [tt rt rtags ir fav crt subs]; simpl in *.
  f_equal.
  - apply delete_insert_id. by apply not_elem_of_dom.
  - apply gset_filter_all. intros row Hrow Heq.
    apply Hfresh. rewrite <-Heq. by apply Htags.
  - apply list_filter_all. eapply Forall_impl; [exact Hingr|].
    simpl. intros row Hrow Heq. apply Hfresh. by rewrite <-Heq.
  - apply gset_filter_all. intros row Hrow Heq.
    apply Hfresh. rewrite <-Heq. by apply Hfav.
  - apply gset_filter_all. intros row Hrow Heq.
    apply Hfresh. rewrite <-Heq. by apply Hcart.
Qed.

Lemma for_each_ingred_recipes_create recipe ingredients db :
  for_each ingredients (ingred_recipes_create recipe) db
  = (set_ingredient_recipe
       (λ rows, rows ++ new_ingred_recipes recipe ingredients) db,
     ret tt).
Proof.
  revert db. induction ingredients as [|item rest IH]; intros db.
  - destruct db. unfold set_ingredient_recipe. simpl.
    by rewrite app_nil_r.
  - simpl. unfold mbind at 1. unfold ingred_recipes_create at 1.
    rewrite IH. destruct db. unfold set_ingredient_recipe. simpl.
    by rewrite <-app_assoc.
Qed.

End store_facts.


(** ** Converting the tag list *)

Section conversion_facts.

Context `{PyBuiltins}.

Lemma get_prep_value_converts value :
  converts value → ∃ target, get_prep_value value = ret target.
Proof.
  destruct value; simpl; try (by eauto); try done.
  intros [n Hn]. rewrite Hn. by eauto.
Qed.





Lemma get_target_ids_ints (ids : list Z) :
  get_target_ids (PyInt <$> ids) = ret (Some <$> ids).
Proof.
  induction ids as [|n ids IH]; [done|].
  rewrite !fmap_cons. cbn [get_target_ids]. rewrite IH. done.
Qed.

(** Only [ValueError], [TypeError] and [OverflowError] come out of the
    conversion. *)
Lemma get_target_ids_raises tags e :
  get_target_ids tags = raise e →
  e = ValueError ∨ e = TypeError ∨ e = OverflowError.
Proof.
  induction tags as [|v tags IH]; simpl; [done|].
  destruct v; simpl; try (destruct (int_of_str s); simpl);
    try (destruct (get_target_ids tags); simpl; [by apply IH|done]);
    intros [= <-]; auto.
Qed.

(** When every target can be inserted, the targets are tag ids. *)
Lemma insertable_all_some db (targets : list (option Z)) :
  forallb (insertable db) targets = true →
  ∃ ids, targets = Some <$> ids ∧ Forall (λ n, n ∈ dom (tag_table db)) ids.
Proof.
  induction targets as [|[n|] targets IH]; simpl.
  - intros _. by exists [].
  - intros [Hn (ids & -> & Hids)%IH]%andb_prop.
    exists (n :: ids). split; [done|]. constructor; [|done].
    by apply bool_decide_eq_true in Hn.
  - done.
Qed.


End conversion_facts.

(** ** Writing a recipe *)

Section write_facts.

Context `{PyBuiltins} `{KeyColumn}.
Implicit Types (db : database) (tags : list pyval)
  (ingredients : list ingred_item) (data : recipe_fields).

(** The store in which [create] attaches the tags, and the key it uses. *)
Local Notation "'created' user data db" := ((objects_create user data db).1)
  (at level 10, user, data, db at level 9, only parsing).
Local Notation "'new_pk' db" := (next_pk (recipe_table db))
  (at level 10, db at level 9, only parsing).
Local Notation "'cleared' instance db" := ((tags_clear (pk instance) db).1)
  (at level 10, instance, db at level 9, only parsing).

Lemma cleared_not_linked recipe db target :
  already_linked (tags_clear recipe db).1 recipe target = false.
Proof.
  destruct target as [tag|]; [|done]. simpl.
  apply bool_decide_eq_false_2. rewrite elem_of_filter. simpl. tauto.
Qed.

Lemma filter_not_linked (linked : option Z → bool) (targets : list (option Z)) :
  (∀ t, linked t = false) →
  filter (λ t, linked t = false) targets = targets.
Proof. intros Hl. apply list_filter_all, Forall_forall. auto. Qed.

Lemma tags_add_raise recipe tags db e :
  get_target_ids tags = raise e → tags_add recipe tags db = (db, raise e).
Proof. intros Hget. unfold tags_add. by rewrite Hget. Qed.

Lemma tags_add_data_error recipe tags db targets :
  get_target_ids tags = ret targets →
  forallb fits targets = false →
  tags_add recipe tags db = (db, raise DataError).
Proof.
  intros Hget Hfit. unfold tags_add. rewrite Hget.
  unfold ret at 1. cbv beta iota zeta. by rewrite Hfit.
Qed.

Lemma tags_add_integrity recipe tags db targets :
  get_target_ids tags = ret targets →
  forallb fits targets = true →
  forallb (insertable db)
    (filter (λ t, already_linked db recipe t = false) targets) = false →
  tags_add recipe tags db = (db, raise IntegrityError).
Proof.
  intros Hget Hfit Hins. unfold tags_add. rewrite Hget.
  unfold ret at 1. cbv beta iota zeta. by rewrite Hfit, Hins.
Qed.

(** [add] looks at its arguments through their conversion only. *)
Lemma tags_add_targets recipe tags tags' db :
  get_target_ids tags = get_target_ids tags' →
  tags_add recipe tags db = tags_add recipe tags' db.
Proof. intros Hget. unfold tags_add. by rewrite Hget. Qed.

Lemma tags_add_ok recipe tags db targets :
  get_target_ids tags = ret targets →
  forallb fits targets = true →
  forallb (insertable db)
    (filter (λ t, already_linked db recipe t = false) targets) = true →
  tags_add recipe tags db
  = (set_recipe_tags
       (λ rows, rows ∪ through_rows recipe
                         (filter (λ t, already_linked db recipe t = false)
                            targets)) db,
     ret tt).
Proof.
  intros Hget Hfit Hins. unfold tags_add. rewrite Hget.
  unfold ret at 1. cbv beta iota zeta. by rewrite Hfit, Hins.
Qed.

(** [create] runs its [try] in the store that holds the new row. *)
Lemma create_unfold user data ingredients tags db :
  RecipeSerializer.create user data ingredients tags db
  = mbind
      (try_except (tags_add (new_pk db) tags)
         (λ e, match e with
               | IntegrityError =>
                   mbind (recipe_delete (new_pk db))
                     (λ _, mraise (NotFound k_tags msg_param_not_found))
               | ValueError =>
                   mbind (recipe_delete (new_pk db))
                     (λ _, mraise
                             (ValidationError k_tags
                                (msg_expected_int
                                   (RecipeSerializer.non_int_types tags))))
               | _ => mraise e
               end))
      (λ _, mbind (for_each ingredients
                     (ingred_recipes_create (new_pk db)))
              (λ _, mret (new_pk db)))
      (created user data db).
Proof. reflexivity. Qed.

Lemma create_value_error user data ingredients tags db :
  get_target_ids tags = raise ValueError →
  RecipeSerializer.create user data ingredients tags db
  = ((recipe_delete (new_pk db) (created user data db)).1,
     raise (ValidationError k_tags
              (msg_expected_int (RecipeSerializer.non_int_types tags)))).
Proof.
  intros Hget. rewrite create_unfold.
  unfold mbind at 1, try_except. by rewrite (tags_add_raise _ _ _ _ Hget).
Qed.

Lemma create_type_error user data ingredients tags db :
  get_target_ids tags = raise TypeError →
  RecipeSerializer.create user data ingredients tags db
  = (created user data db, raise TypeError).
Proof.
  intros Hget. rewrite create_unfold.
  unfold mbind at 1, try_except. by rewrite (tags_add_raise _ _ _ _ Hget).
Qed.

Lemma create_overflow_error user data ingredients tags db :
  get_target_ids tags = raise OverflowError →
  RecipeSerializer.create user data ingredients tags db
  = (created user data db, raise OverflowError).
Proof.
  intros Hget. rewrite create_unfold.
  unfold mbind at 1, try_except. by rewrite (tags_add_raise _ _ _ _ Hget).
Qed.

Lemma create_data_error user data ingredients tags db targets :
  get_target_ids tags = ret targets →
  forallb fits targets = false →
  RecipeSerializer.create user data ingredients tags db
  = (created user data db, raise DataError).
Proof.
  intros Hget Hfit. rewrite create_unfold.
  unfold mbind at 1, try_except.
  by rewrite (tags_add_data_error _ _ (created user data db) _ Hget Hfit).
Qed.

Lemma create_integrity_error user data ingredients tags db targets :
  get_target_ids tags = ret targets →
  forallb fits targets = true →
  forallb (insertable db)
    (filter (λ t, already_linked db (new_pk db) t = false) targets) = false →
  RecipeSerializer.create user data ingredients tags db
  = ((recipe_delete (new_pk db) (created user data db)).1,
     raise (NotFound k_tags msg_param_not_found)).
Proof.
  intros Hget Hfit Hins. rewrite create_unfold.
  unfold mbind at 1, try_except.
  by rewrite (tags_add_integrity _ _ (created user data db) _ Hget Hfit Hins).
Qed.

(** [update] runs its [try] in the store whose tag rows are cleared. *)
Lemma update_unfold instance data ingredients tags db :
  RecipeSerializer.update instance data ingredients tags db
  = mbind
      (try_except (tags_add (pk instance) tags)
         (λ e, match e with
               | IntegrityError =>
                   mraise (NotFound k_tags msg_param_not_found)
               | ValueError =>
                   mraise (ValidationError k_tags
                             (msg_expected_int
                                (RecipeSerializer.non_int_types tags)))
               | _ => mraise e
               end))
      (λ _, mbind (ingredients_clear (pk instance))
              (λ _, mbind (for_each ingredients
                             (ingred_recipes_create (pk instance)))
                      (λ _, model_update instance data)))
      (cleared instance db).
Proof. reflexivity. Qed.

Lemma cleared_filter instance db (targets : list (option Z)) :
  filter (λ t, already_linked (cleared instance db) (pk instance) t = false)
    targets = targets.
Proof.
  apply list_filter_all, Forall_forall. intros t _.
  apply cleared_not_linked.
Qed.

Lemma update_conversion_error instance data ingredients tags db e :
  get_target_ids tags = raise e →
  RecipeSerializer.update instance data ingredients tags db
  = (cleared instance db,
     raise (match e with
            | ValueError =>
                ValidationError k_tags
                  (msg_expected_int (RecipeSerializer.non_int_types tags))
            | _ => e
            end)).
Proof.
  intros Hget. rewrite update_unfold. unfold mbind at 1, try_except.
  rewrite (tags_add_raise _ _ _ _ Hget).
  by destruct (get_target_ids_raises _ _ Hget) as [-> | [-> | ->]].
Qed.

Lemma update_data_error instance data ingredients tags db targets :
  get_target_ids tags = ret targets →
  forallb fits targets = false →
  RecipeSerializer.update instance data ingredients tags db
  = (cleared instance db, raise DataError).
Proof.
  intros Hget Hfit. rewrite update_unfold. unfold mbind at 1, try_except.
  by rewrite (tags_add_data_error _ _ (cleared instance db) _ Hget Hfit).
Qed.

Lemma update_integrity_error instance data ingredients tags db targets :
  get_target_ids tags = ret targets →
  forallb fits targets = true →
  forallb (insertable db) targets = false →
  RecipeSerializer.update instance data ingredients tags db
  = (cleared instance db, raise (NotFound k_tags msg_param_not_found)).
Proof.
  intros Hget Hfit Hins. rewrite update_unfold.
  unfold mbind at 1, try_except.
  rewrite (tags_add_integrity _ _ (cleared instance db) _ Hget Hfit);
    [done|].
  by rewrite cleared_filter.
Qed.

Lemma update_ok instance data ingredients tags db targets :
  get_target_ids tags = ret targets →
  forallb fits targets = true →
  forallb (insertable db) targets = true →
  RecipeSerializer.update instance data ingredients tags db
  = (updated instance data ingredients targets db,
     ret (mkInstance (pk instance)
            (mkRecipe (author (fields instance)) (f_name data)
               (f_image data) (f_text data) (f_cooking_time data)))).
Proof.
  intros Hget Hfit Hins. rewrite update_unfold.
  unfold mbind at 1, try_except.
  rewrite (tags_add_ok _ _ (cleared instance db) _ Hget Hfit)
    by (by rewrite cleared_filter).
  rewrite cleared_filter.
  unfold mbind at 1. unfold ingredients_clear at 1.
  unfold ret. cbv beta iota. unfold mbind.
  rewrite for_each_ingred_recipes_create.
  by destruct db.
Qed.

Lemma create_ok user data ingredients tags db targets :
  get_target_ids tags = ret targets →
  forallb fits targets = true →
  forallb (insertable db)
    (filter (λ t, already_linked db (next_pk (recipe_table db)) t = false)
       targets) = true →
  RecipeSerializer.create user data ingredients tags db
  = (created_store user data ingredients
       (filter (λ t, already_linked db (next_pk (recipe_table db)) t = false)
          targets) db,
     ret (next_pk (recipe_table db))).
Proof.
  intros Hget Hfit Hins. rewrite create_unfold.
  unfold mbind at 1, try_except.
  rewrite (tags_add_ok _ _ (objects_create user data db).1 _ Hget Hfit Hins).
  unfold ret. cbv beta iota. unfold mbind.
  rewrite for_each_ingred_recipes_create.
  by destruct db.
Qed.






End write_facts.


(** ** What a reader sees after a write *)

Section read_after_write.

Implicit Types (db : database) (recipe : Z).

Lemma elem_of_through_rows recipe (ids : list Z) (row : Z * Z) :
  row ∈ through_rows recipe (Some <$> ids) ↔ row.1 = recipe ∧ row.2 ∈ ids.
Proof.
  unfold through_rows. rewrite elem_of_list_to_set, list_elem_of_omap.
  destruct row as [r t]. simpl. split.
  - intros (target & Hin & Heq). apply list_elem_of_fmap in Hin as (n & -> & Hn).
    simpl in Heq. injection Heq as <- <-. done.
  - intros [-> Ht]. exists (Some t). split; [|done].
    apply list_elem_of_fmap. by exists t.
Qed.

Lemma tags_of_updated instance data ingredients (ids : list Z) db :
  tags_of (updated instance data ingredients (Some <$> ids) db) (pk instance)
  = list_to_set ids.
Proof.
  unfold tags_of, updated. simpl. apply set_eq. intros t.
  rewrite elem_of_map, elem_of_list_to_set. split.
  - intros (row & -> & [Hpk Hin]%elem_of_filter).
    apply elem_of_union in Hin as [[Hne _]%elem_of_filter|Hin]; [done|].
    by apply elem_of_through_rows in Hin as [_ ?].
  - intros Ht. exists (pk instance, t). split; [done|].
    apply elem_of_filter. split; [done|].
    apply elem_of_union_r, elem_of_through_rows. done.
Qed.

Lemma ingred_recipes_of_updated instance data ingredients targets db :
  ingred_recipes_of (updated instance data ingredients targets db)
    (pk instance)
  = new_ingred_recipes (pk instance) ingredients.
Proof.
  unfold ingred_recipes_of, updated. simpl. rewrite filter_app.
  rewrite list_filter_none, list_filter_all; [done|..].
  - unfold new_ingred_recipes. apply Forall_fmap, Forall_forall. done.
  - apply Forall_forall. intros row [Hne _]%list_elem_of_filter. done.
Qed.

Lemma tags_of_cleared recipe db : tags_of (tags_clear recipe db).1 recipe = ∅.
Proof.
  unfold tags_of. simpl. apply set_eq. intros t.
  rewrite elem_of_map. split; [|by intros ?%not_elem_of_empty].
  intros (row & -> & [Hpk [Hne _]%elem_of_filter]%elem_of_filter). done.
Qed.

End read_after_write.

(** ** Creating and updating recipes *)

Section write_claims.

Context `{PyBuiltins} `{KeyColumn}.
Implicit Types (db : database) (tags : list pyval)
  (ingredients : list ingred_item) (data : recipe_fields).



(** C8: after a successful update of a recipe (with a validated ingredient
    list) the tags of the recipe are exactly the ids of the payload and its
    ingredient rows are exactly the rows of the payload, in order: nothing
    of the old associations is left. *)
Theorem update_replaces_associations db db' (instance r : recipe_instance)
    data ingredients tags :
  RecipeSerializer.validate_ingredients ingredients = ret ingredients →
  RecipeSerializer.update instance data ingredients tags db = (db', ret r) →
  (∃ ids, get_target_ids tags = ret (Some <$> ids)
          ∧ tags_of db' (pk instance) = list_to_set ids)
  ∧ (∀ ids, tags = PyInt <$> ids →
            tags_of db' (pk instance) = list_to_set ids)
  ∧ ingred_recipes_of db' (pk instance)
    = new_ingred_recipes (pk instance) ingredients.
Proof.
  intros _ Hupd.
  destruct (get_target_ids tags) as [e|targets] eqn:Hget.
  { by rewrite (update_conversion_error _ _ _ _ _ e Hget) in Hupd. }
  destruct (forallb fits targets) eqn:Hfit.
  2: { by rewrite (update_data_error _ _ _ _ _ targets Hget Hfit)
         in Hupd. }
  destruct (forallb (insertable db) targets) eqn:Hins.
  2: { by rewrite (update_integrity_error _ _ _ _ _ targets Hget Hfit Hins)
         in Hupd. }
  rewrite (update_ok _ _ _ _ _ targets Hget Hfit Hins) in Hupd.
  injection Hupd as <- _.
  destruct (insertable_all_some _ _ Hins) as (ids & -> & _).
  split; [|split].
  - exists ids. split; [done|]. apply tags_of_updated.
  - intros ids' ->. rewrite get_target_ids_ints in Hget.
    injection Hget as Heq.
    apply (inj (fmap Some)) in Heq as ->. apply tags_of_updated.
  - apply ingred_recipes_of_updated.
Qed.

End write_claims.




Lemma update_replaces_associations_witness :
  tags_of sample_db 7 = list_to_set [1; 2]
  ∧ ingred_recipes_of sample_db 7 = [mkIngredientRecipe 7 5 2]
  ∧ tags_of sample_update.1 7 = list_to_set [3]
  ∧ ingred_recipes_of sample_update.1 7 = [mkIngredientRecipe 7 5 4].
Proof.
  split; [vm_compute; reflexivity|]. split; [reflexivity|].
  destruct (update_replaces_associations (H:=decimal_builtins)
              sample_db sample_update.1 sample_instance
              (mkInstance 7 (mkRecipe 1 "omelette" "omelette.png"
                               "beat, fry, fold" 12))
              sample_fields [mkItem flour 4] [PyInt 3])
    as (_ & Htags & Hrows).
  - vm_compute. reflexivity.
  - vm_compute. reflexivity.
  - split; [exact (Htags [3] eq_refl)|exact Hrows].
Defined.


(** C2 does not hold of [update]: updating recipe 7 (tags 1 and 2) with the
    unknown tag id 99 fails with [NotFound], and afterwards the recipe has
    no tags at all; its ingredient rows and scalar fields are as before. *)
Lemma update_failure_loses_tags :
  sample_failed_update.2 = raise (NotFound k_tags msg_param_not_found)
  ∧ tags_of sample_db 7 = list_to_set [1; 2]
  ∧ tags_of sample_failed_update.1 7 = ∅
  ∧ tags_of sample_failed_update.1 7 ≠ tags_of sample_db 7
  ∧ ingred_recipes_of sample_failed_update.1 7 = ingred_recipes_of sample_db 7
  ∧ recipe_table sample_failed_update.1 = recipe_table sample_db.
Proof.
  split; [vm_compute; reflexivity|]. split; [vm_compute; reflexivity|].
  split; [vm_compute; reflexivity|]. split; [|split].
  - vm_compute. discriminate.
  - reflexivity.
  - vm_compute. reflexivity.
Qed.

(** * Further properties of the code *)

(** ** A create that goes through, and one that is left half done *)

Section create_outcomes.

Context `{PyBuiltins} `{KeyColumn}.
Implicit Types (db : database) (tags : list pyval)
  (ingredients : list ingred_item) (data : recipe_fields).

(** Every way [create] can end, by the conversion of the tag list and the
    presence of the tags: the store is restored, or an exception that no
    handler catches leaves the new row behind, or the recipe is written. *)
Lemma create_cases user data ingredients tags db :
  referential_integrity db →
  (∃ e, RecipeSerializer.create user data ingredients tags db
        = (db, raise e))
  ∨ (∃ e, (e = TypeError ∨ e = OverflowError ∨ e = DataError)
          ∧ RecipeSerializer.create user data ingredients tags db
            = ((objects_create user data db).1, raise e))
  ∨ (∃ ids, get_target_ids tags = ret (Some <$> ids)
            ∧ Forall (λ n, n ∈ dom (tag_table db)) ids
            ∧ RecipeSerializer.create user data ingredients tags db
              = (created_store user data ingredients (Some <$> ids) db,
                 ret (next_pk (recipe_table db)))).
Proof.
  intros Hwf.
  destruct (get_target_ids tags) as [e|targets] eqn:Hget.
  - destruct (get_target_ids_raises _ _ Hget) as [-> | [-> | ->]].
    + left. eexists. rewrite (create_value_error _ _ _ _ _ Hget).
      by rewrite create_delete_restores.
    + right; left. exists TypeError. split; [by left|].
      by apply create_type_error.
    + right; left. exists OverflowError. split; [by right; left|].
      by apply create_overflow_error.
  - destruct (forallb fits targets) eqn:Hfit.
    2: { right; left. exists DataError. split; [by right; right|].
         by eapply create_data_error. }
    assert (filter (λ t, already_linked db (next_pk (recipe_table db)) t
                         = false) targets = targets) as Hmiss.
    { apply filter_not_linked. intros t. by apply integrity_not_linked. }
    destruct (forallb (insertable db) targets) eqn:Hins.
    + right; right.
      destruct (insertable_all_some _ _ Hins) as (ids & -> & Hids).
      exists ids. split; [done|]. split; [done|].
      rewrite (create_ok _ _ _ _ _ _ Hget Hfit) by (by rewrite Hmiss).
      by rewrite Hmiss.
    + left. eexists.
      rewrite (create_integrity_error _ _ _ _ _ _ Hget Hfit)
        by (by rewrite Hmiss).
      by rewrite create_delete_restores.
Qed.

Lemma tags_of_created user data ingredients (ids : list Z) db :
  referential_integrity db →
  tags_of (created_store user data ingredients (Some <$> ids) db)
    (next_pk (recipe_table db))
  = list_to_set ids.
Proof.
  intros (Htags & _).
  pose proof (next_pk_fresh (recipe_table db)) as Hfresh.
  unfold tags_of, created_store. simpl. apply set_eq. intros t.
  rewrite elem_of_map, elem_of_list_to_set. split.
  - intros (row & -> & [Hpk Hin]%elem_of_filter).
    apply elem_of_union in Hin as [Hin|Hin].
    + exfalso. apply Hfresh. rewrite <-Hpk. by apply Htags.
    + by apply elem_of_through_rows in Hin as [_ ?].
  - intros Ht. exists (next_pk (recipe_table db), t). split; [done|].
    apply elem_of_filter. split; [done|].
    apply elem_of_union_r, elem_of_through_rows. done.
Qed.

Lemma ingred_recipes_of_fresh db :
  referential_integrity db →
  ingred_recipes_of db (next_pk (recipe_table db)) = [].
Proof.
  intros (_ & Hingr & _).
  pose proof (next_pk_fresh (recipe_table db)) as Hfresh.
  apply list_filter_none. eapply Forall_impl; [exact Hingr|].
  simpl. intros row Hrow Heq. apply Hfresh. by rewrite <-Heq.
Qed.

Lemma tags_of_fresh db :
  referential_integrity db →
  tags_of db (next_pk (recipe_table db)) = ∅.
Proof.
  intros (Htags & _).
  pose proof (next_pk_fresh (recipe_table db)) as Hfresh.
  unfold tags_of. apply set_eq. intros t.
  rewrite elem_of_map. split; [|by intros ?%not_elem_of_empty].
  intros (row & -> & [Hpk Hin]%elem_of_filter).
  exfalso. apply Hfresh. rewrite <-Hpk. by apply Htags.
Qed.

Lemma ingred_recipes_of_created user data ingredients targets db :
  referential_integrity db →
  ingred_recipes_of (created_store user data ingredients targets db)
    (next_pk (recipe_table db))
  = new_ingred_recipes (next_pk (recipe_table db)) ingredients.
Proof.
  intros Hwf. unfold ingred_recipes_of, created_store. simpl.
  rewrite filter_app.
  pose proof (ingred_recipes_of_fresh db Hwf) as Hnone.
  unfold ingred_recipes_of in Hnone. rewrite Hnone. simpl.
  apply list_filter_all. unfold new_ingred_recipes.
  apply Forall_fmap, Forall_forall. done.
Qed.

(** X1: a create that returns a recipe has given it a key no row had, has
    stored the payload's scalar fields with the requester as author, has
    linked exactly the tags of the payload, all of them rows of [Tag], and
    has created exactly one ingredient row per item of the payload, in
    order and with its amount. *)
Theorem create_success db db' (user r : Z) data ingredients tags :
  referential_integrity db →
  RecipeSerializer.create user data ingredients tags db = (db', ret r) →
  r = next_pk (recipe_table db)
  ∧ (r ∉ dom (recipe_table db))
  ∧ recipe_table db'
    = <[r := mkRecipe user (f_name data) (f_image data) (f_text data)
               (f_cooking_time data)]> (recipe_table db)
  ∧ (∃ ids, get_target_ids tags = ret (Some <$> ids)
            ∧ Forall (λ n, n ∈ dom (tag_table db)) ids
            ∧ tags_of db' r = list_to_set ids)
  ∧ ingred_recipes_of db' r = new_ingred_recipes r ingredients
  ∧ length (ingred_recipes_of db' r) = length ingredients.
Proof.
  intros Hwf Hcreate.
  destruct (create_cases user data ingredients tags db Hwf)
    as [[e He]|[(e & _ & He)|(ids & Hget & Hids & He)]];
    rewrite He in Hcreate; try done.
  injection Hcreate as <- <-.
  split; [done|]. split; [apply next_pk_fresh|]. split; [done|].
  split; [|split].
  - exists ids. split; [done|]. split; [done|]. by apply tags_of_created.
  - by apply ingred_recipes_of_created.
  - rewrite ingred_recipes_of_created by done.
    unfold new_ingred_recipes. by rewrite length_fmap.
Qed.

(** X2: when [int] raises [TypeError] on a value of the tag list (a JSON
    array or object, with only convertible values before it), [create]
    lets the error through without deleting the row it has just made: the
    recipe stays in the store with no tag and no ingredient row. *)
Theorem create_type_error_keeps_row db (user : Z) data ingredients
    (pre post : list pyval) (v : pyval) :
  referential_integrity db →
  Forall converts pre →
  type_of v = t_list ∨ type_of v = t_dict →
  (RecipeSerializer.create user data ingredients (pre ++ v :: post) db).2
  = raise TypeError
  ∧ (recipe_table
       (RecipeSerializer.create user data ingredients (pre ++ v :: post)
          db).1
     !! next_pk (recipe_table db))
    = Some (mkRecipe user (f_name data) (f_image data) (f_text data)
              (f_cooking_time data))
  ∧ tags_of
      (RecipeSerializer.create user data ingredients (pre ++ v :: post) db).1
      (next_pk (recipe_table db)) = ∅
  ∧ ingred_recipes_of
      (RecipeSerializer.create user data ingredients (pre ++ v :: post) db).1
      (next_pk (recipe_table db)) = [].
Proof.
  intros Hwf Hpre Hv.
  assert (get_target_ids (pre ++ v :: post) = raise TypeError) as Hget.
  { clear Hwf. induction Hpre as [|w pre Hw _ IH]; simpl.
    - by destruct v, Hv.
    - destruct (get_prep_value_converts w Hw) as [t ->]. simpl.
      by rewrite IH. }
  rewrite (create_type_error _ _ _ _ _ Hget). simpl.
  split; [done|]. split; [apply lookup_insert_eq|]. split.
  - by apply (tags_of_fresh db).
  - by apply (ingred_recipes_of_fresh db).
Qed.

End create_outcomes.

Lemma create_success_witness :
  sample_create.2 = ret 8
  ∧ tags_of sample_create.1 8 = list_to_set [1; 3]
  ∧ ingred_recipes_of sample_create.1 8
    = [mkIngredientRecipe 8 5 4; mkIngredientRecipe 8 6 1].
Proof.
  destruct (create_success (H:=decimal_builtins) sample_db sample_create.1
              2 8 sample_fields [mkItem flour 4; mkItem egg 1]
              [PyInt 1; PyInt 3])
    as (_ & _ & _ & (ids & Hget & _ & Htags) & Hrows & _).
  - apply (bool_decide_unpack _). vm_compute. exact I.
  - vm_compute. reflexivity.
  - split; [vm_compute; reflexivity|]. split; [|exact Hrows].
    injection Hget as Hids.
    destruct ids as [|a [|b [|c ids]]]; try discriminate.
    injection Hids as <- <-. exact Htags.
Defined.

Lemma create_type_error_keeps_row_witness :
  sample_create_list.2 = raise TypeError
  ∧ (recipe_table sample_create_list.1 !! 8)
    = Some (mkRecipe 2 "omelette" "omelette.png" "beat, fry, fold" 12)
  ∧ tags_of sample_create_list.1 8 = ∅
  ∧ ingred_recipes_of sample_create_list.1 8 = [].
Proof.
  apply (create_type_error_keeps_row (H:=decimal_builtins) sample_db 2
           sample_fields [mkItem flour 4] [PyInt 1] [] PyList).
  - apply (bool_decide_unpack _). vm_compute. exact I.
  - apply (bool_decide_unpack _). vm_compute. exact I.
  - by left.
Defined.

(** ** What an update touches *)

Section update_outcomes.

Context `{PyBuiltins} `{KeyColumn}.
Implicit Types (db : database) (tags : list pyval)
  (ingredients : list ingred_item) (data : recipe_fields)
  (instance : recipe_instance).

(** Every way [update] can end once it holds the tags and the ingredients
    of the payload. *)
Lemma update_cases instance data ingredients tags db :
  (∃ e, RecipeSerializer.update instance data ingredients tags db
        = ((tags_clear (pk instance) db).1, raise e)
        ∧ (e = NotFound k_tags msg_param_not_found
           ∨ e = ValidationError k_tags
                   (msg_expected_int (RecipeSerializer.non_int_types tags))
           ∨ e = TypeError ∨ e = OverflowError ∨ e = DataError))
  ∨ (∃ ids, get_target_ids tags = ret (Some <$> ids)
            ∧ Forall (λ n, n ∈ dom (tag_table db)) ids
            ∧ forallb fits (Some <$> ids) = true
            ∧ RecipeSerializer.update instance data ingredients tags db
              = (updated instance data ingredients (Some <$> ids) db,
                 ret (mkInstance (pk instance)
                        (mkRecipe (author (fields instance)) (f_name data)
                           (f_image data) (f_text data)
                           (f_cooking_time data))))).
Proof.
  destruct (get_target_ids tags) as [e|targets] eqn:Hget.
  - left. eexists. split; [by apply update_conversion_error|].
    destruct (get_target_ids_raises _ _ Hget) as [-> | [-> | ->]]; auto 6.
  - destruct (forallb fits targets) eqn:Hfit.
    2: { left. eexists. split; [by eapply update_data_error|]. auto 6. }
    destruct (forallb (insertable db) targets) eqn:Hins.
    + right. destruct (insertable_all_some _ _ Hins) as (ids & -> & Hids).
      exists ids. split; [done|]. split; [done|]. split; [done|].
      by apply update_ok.
    + left. eexists. split; [by eapply update_integrity_error|]. auto.
Qed.

Lemma tags_of_cleared_ne recipe r db :
  r ≠ recipe → tags_of (tags_clear recipe db).1 r = tags_of db r.
Proof.
  intros Hne. unfold tags_of. simpl. apply set_eq. intros t.
  rewrite !elem_of_map. split.
  - intros (row & -> & [Hr [_ Hin]%elem_of_filter]%elem_of_filter).
    exists row. split; [done|]. by apply elem_of_filter.
  - intros (row & -> & [Hr Hin]%elem_of_filter).
    exists row. split; [done|]. apply elem_of_filter. split; [done|].
    apply elem_of_filter. split; [congruence|done].
Qed.

Lemma tags_of_updated_ne instance data ingredients (ids : list Z) r db :
  r ≠ pk instance →
  tags_of (updated instance data ingredients (Some <$> ids) db) r
  = tags_of db r.
Proof.
  intros Hne. unfold tags_of, updated. simpl. apply set_eq. intros t.
  rewrite !elem_of_map. split.
  - intros (row & -> & [Hr Hin]%elem_of_filter).
    apply elem_of_union in Hin as [[_ Hin]%elem_of_filter|Hin].
    + exists row. split; [done|]. by apply elem_of_filter.
    + apply elem_of_through_rows in Hin as [Hpk _]. congruence.
  - intros (row & -> & [Hr Hin]%elem_of_filter).
    exists row. split; [done|]. apply elem_of_filter. split; [done|].
    apply elem_of_union_l, elem_of_filter. split; [congruence|done].
Qed.

Lemma filter_recipe_new_ne (r recipe : Z) ingredients :
  r ≠ recipe →
  filter (λ row, ir_recipe row = r) (new_ingred_recipes recipe ingredients)
  = [].
Proof.
  intros Hne. apply list_filter_none. unfold new_ingred_recipes.
  apply Forall_fmap, Forall_forall. simpl. congruence.
Qed.

Lemma filter_recipe_others (r recipe : Z) (rows : list IngredientRecipe) :
  r ≠ recipe →
  filter (λ row, ir_recipe row = r)
    (filter (λ row, ir_recipe row ≠ recipe) rows)
  = filter (λ row, ir_recipe row = r) rows.
Proof.
  intros Hne. induction rows as [|row rows IH]; [done|].
  destruct (decide (ir_recipe row = recipe)) as [Heq|Hneq].
  - rewrite (filter_cons_False (λ row, ir_recipe row ≠ recipe)) by tauto.
    rewrite (filter_cons_False (λ row, ir_recipe row = r)) by congruence.
    done.
  - rewrite (filter_cons_True (λ row, ir_recipe row ≠ recipe)) by done.
    rewrite !filter_cons. by rewrite IH.
Qed.

Lemma ingred_recipes_of_updated_ne instance data ingredients targets r db :
  r ≠ pk instance →
  ingred_recipes_of (updated instance data ingredients targets db) r
  = ingred_recipes_of db r.
Proof.
  intros Hne. unfold ingred_recipes_of, updated. simpl.
  rewrite filter_app, filter_recipe_new_ne, app_nil_r by done.
  by apply filter_recipe_others.
Qed.


(** X4: an update, whether it succeeds or fails, leaves every other recipe
    as it was (its row, its tags, its ingredient rows) and does not touch
    the tag catalogue, the favourites, the carts or the subscriptions. *)
Theorem update_frame db instance data ingredients tags (r : Z) :
  r ≠ pk instance →
  tags_of (RecipeSerializer.update instance data ingredients tags db).1 r
  = tags_of db r
  ∧ ingred_recipes_of
      (RecipeSerializer.update instance data ingredients tags db).1 r
    = ingred_recipes_of db r
  ∧ (recipe_table
       (RecipeSerializer.update instance data ingredients tags db).1 !! r)
    = (recipe_table db !! r)
  ∧ tag_table (RecipeSerializer.update instance data ingredients tags db).1
    = tag_table db
  ∧ favourite (RecipeSerializer.update instance data ingredients tags db).1
    = favourite db
  ∧ carts (RecipeSerializer.update instance data ingredients tags db).1
    = carts db
  ∧ subscriptions
      (RecipeSerializer.update instance data ingredients tags db).1
    = subscriptions db.
Proof.
  intros Hne.
  destruct (update_cases instance data ingredients tags db)
    as [(e' & -> & _)|(ids & _ & _ & _ & ->)].
  - split; [by apply tags_of_cleared_ne|]. done.
  - split; [by apply tags_of_updated_ne|].
    split; [by apply ingred_recipes_of_updated_ne|].
    split; [|done]. simpl. by rewrite lookup_insert_ne.
Qed.

Lemma updated_twice instance data ingredients (ids : list Z) db :
  updated instance data ingredients (Some <$> ids)
    (updated instance data ingredients (Some <$> ids) db)
  = updated instance data ingredients (Some <$> ids) db.
Proof.
  unfold updated. simpl. f_equal.
  - apply insert_insert_eq.
  - apply set_eq. intros row.
    rewrite !elem_of_union, !elem_of_filter, !elem_of_union, !elem_of_filter.
    rewrite elem_of_through_rows. naive_solver.
  - rewrite filter_app. f_equal.
    rewrite (list_filter_none _ (new_ingred_recipes _ _)).
    + rewrite app_nil_r. apply list_filter_all, Forall_forall.
      by intros row [? _]%list_elem_of_filter.
    + unfold new_ingred_recipes. apply Forall_fmap, Forall_forall.
      simpl. tauto.
Qed.

(** X5: an update that succeeded can be replayed: the same payload applied
    to the store it produced succeeds again and changes nothing. *)
Theorem update_idempotent db db' instance (r : recipe_instance) data
    ingredients tags :
  RecipeSerializer.update instance data ingredients tags db = (db', ret r) →
  RecipeSerializer.update instance data ingredients tags db' = (db', ret r).
Proof.
  intros Hupd.
  destruct (update_cases instance data ingredients tags db)
    as [(e' & He & _)|(ids & Hget & Hids & Hfit & He)];
    rewrite He in Hupd; [done|].
  injection Hupd as <- <-.
  rewrite (update_ok _ _ _ _ _ (Some <$> ids) Hget Hfit).
  - by rewrite updated_twice.
  - apply Is_true_eq_true, forallb_True, Forall_fmap, Forall_forall.
    intros n Hn. simpl. apply bool_decide_pack.
    by apply (proj1 (Forall_forall _ _) Hids).
Qed.

End update_outcomes.


Lemma update_frame_witness :
  tags_of sample_create.1 7 = list_to_set [1; 2]
  ∧ tags_of
      (RecipeSerializer.update (H:=decimal_builtins)
         (mkInstance 8 (mkRecipe 2 "omelette" "omelette.png"
                          "beat, fry, fold" 12))
         sample_fields [mkItem egg 2] [PyInt 2] sample_create.1).1 7
    = tags_of sample_create.1 7.
Proof.
  split; [vm_compute; reflexivity|].
  apply (update_frame (H:=decimal_builtins)). simpl. lia.
Defined.

Lemma update_idempotent_witness :
  RecipeSerializer.update (H:=decimal_builtins) sample_instance sample_fields
    [mkItem flour 4] [PyInt 3] sample_update.1
  = (sample_update.1,
     ret (mkInstance 7 (mkRecipe 1 "omelette" "omelette.png"
                          "beat, fry, fold" 12))).
Proof.
  apply (update_idempotent (H:=decimal_builtins) sample_db).
  vm_compute. reflexivity.
Defined.

(** ** Foreign keys under the writes *)

Section integrity_kept.

Context `{PyBuiltins} `{KeyColumn}.
Implicit Types (db : database) (tags : list pyval)
  (ingredients : list ingred_item) (data : recipe_fields)
  (instance : recipe_instance).

(** A store whose recipe keys only grew, whose favourites and carts are
    the old ones, and whose new association rows point to recipe rows,
    respects its foreign keys if the old one did. *)
Lemma integrity_extends db db' :
  dom (recipe_table db) ⊆ dom (recipe_table db') →
  (∀ row, row ∈ recipe_tags db' →
     row ∈ recipe_tags db ∨ row.1 ∈ dom (recipe_table db')) →
  (∀ row, row ∈ ingredient_recipe db' →
     row ∈ ingredient_recipe db ∨ ir_recipe row ∈ dom (recipe_table db')) →
  favourite db' = favourite db →
  carts db' = carts db →
  referential_integrity db → referential_integrity db'.
Proof.
  intros Hdom Htags' Hingr' Hfav' Hcart' (Htags & Hingr & Hfav & Hcart).
  rewrite Forall_forall in Hingr.
  unfold referential_integrity. rewrite Hfav', Hcart', Forall_forall.
  split; [|split; [|split]].
  - intros row [Hin|Hin]%Htags'; [|done]. by apply Hdom, Htags.
  - intros row [Hin|Hin]%Hingr'; [|done]. by apply Hdom, Hingr.
  - intros row Hin. by apply Hdom, Hfav.
  - intros row Hin. by apply Hdom, Hcart.
Qed.

Lemma elem_of_new_ingred_recipes recipe ingredients row :
  row ∈ new_ingred_recipes recipe ingredients → ir_recipe row = recipe.
Proof.
  unfold new_ingred_recipes. by intros (item & -> & _)%list_elem_of_fmap.
Qed.

(** X6: the writes keep the foreign keys: in a store where every
    association row points to a recipe row, the store that [create] or
    [update] leaves, whether they return or raise, is again such a
    store. *)
Theorem writes_keep_integrity db (user : Z) instance data ingredients tags :
  referential_integrity db →
  referential_integrity
    (RecipeSerializer.create user data ingredients tags db).1
  ∧ referential_integrity
      (RecipeSerializer.update instance data ingredients tags db).1.
Proof.
  intros Hwf. split.
  - destruct (create_cases user data ingredients tags db Hwf)
      as [[e ->]|[(e & _ & ->)|(ids & _ & _ & ->)]]; [done|..].
    + revert Hwf. apply integrity_extends; simpl; try done; try tauto.
      rewrite dom_insert_L. set_solver.
    + revert Hwf. apply integrity_extends; simpl; try done.
      * rewrite dom_insert_L. set_solver.
      * intros row [Hin|Hin]%elem_of_union; [by left|right].
        apply elem_of_through_rows in Hin as [-> _].
        rewrite dom_insert_L. set_solver.
      * intros row [Hin|Hin]%elem_of_app; [by left|right].
        apply elem_of_new_ingred_recipes in Hin as ->.
        rewrite dom_insert_L. set_solver.
  - destruct (update_cases instance data ingredients tags db)
      as [(e & -> & _)|(ids & _ & _ & _ & ->)].
    + revert Hwf. apply integrity_extends; simpl; try done; try tauto.
      intros row [_ Hin]%elem_of_filter. by left.
    + revert Hwf. apply integrity_extends; simpl; try done.
      * rewrite dom_insert_L. set_solver.
      * intros row [[_ Hin]%elem_of_filter|Hin]%elem_of_union;
          [by left|right].
        apply elem_of_through_rows in Hin as [-> _].
        rewrite dom_insert_L. set_solver.
      * intros row [[_ Hin]%list_elem_of_filter|Hin]%elem_of_app;
          [by left|right].
        apply elem_of_new_ingred_recipes in Hin as ->.
        rewrite dom_insert_L. set_solver.
Qed.

End integrity_kept.

Lemma writes_keep_integrity_witness :
  referential_integrity sample_create.1
  ∧ referential_integrity sample_failed_update.1.
Proof.
  destruct (writes_keep_integrity (H:=decimal_builtins) sample_db 2
              sample_instance sample_fields [mkItem flour 4; mkItem egg 1]
              [PyInt 1; PyInt 3]) as [Hcreate _].
  { apply (bool_decide_unpack _). vm_compute. exact I. }
  destruct (writes_keep_integrity (H:=decimal_builtins) sample_db 2
              sample_instance sample_fields [mkItem flour 4]
              [PyInt 99]) as [_ Hupdate].
  { apply (bool_decide_unpack _). vm_compute. exact I. }
  split; [exact Hcreate|exact Hupdate].
Defined.

(** ** How many names the ingredient validator lists, and which *)

Section duplicate_report.

Import RecipeSerializer.
Implicit Types (value : list ingred_item) (seen : list Z).

Lemma repeats_loop_initial value :
  repeats_loop value (list_to_set (ingredient_ids value)) []
  = later_repeats [] value.
Proof.
  pose proof (repeats_loop_later_repeats value
                (list_to_set (ingredient_ids value)) [] []) as Hloop.
  simpl in Hloop.
  replace (list_to_set (ingredient_ids value) ∖ ∅)
    with (list_to_set (C:=gset Z) (ingredient_ids value)) in Hloop
    by set_solver.
  apply Hloop. set_solver.
Qed.

Lemma later_repeats_length seen value :
  (length (later_repeats seen value)
   + size (list_to_set (C:=gset Z) (ingredient_ids value)
           ∖ list_to_set seen)
   = length value)%nat.
Proof.
  revert seen. induction value as [|obj rest IH]; intros seen.
  - simpl. replace (∅ ∖ list_to_set seen) with (∅ : gset Z) by set_solver.
    by rewrite size_empty.
  - unfold ingredient_ids. rewrite fmap_cons. fold (ingredient_ids rest).
    cbn [later_repeats list_to_set length].
    destruct (decide (ingredient_id (ingredient obj) ∈ seen)) as [Hs|Hs].
    + cbn [length].
      replace (({[ingredient_id (ingredient obj)]}
                ∪ list_to_set (ingredient_ids rest)) ∖ list_to_set seen)
        with (list_to_set (C:=gset Z) (ingredient_ids rest)
              ∖ list_to_set seen) by set_solver.
      specialize (IH seen). lia.
    + replace (({[ingredient_id (ingredient obj)]}
                ∪ list_to_set (ingredient_ids rest)) ∖ list_to_set seen)
        with ({[ingredient_id (ingredient obj)]}
              ∪ (list_to_set (C:=gset Z) (ingredient_ids rest)
                 ∖ list_to_set (ingredient_id (ingredient obj) :: seen)))
        by (apply set_eq; intros x; set_unfold;
            destruct (decide (x = ingredient_id (ingredient obj)));
            naive_solver).
      rewrite size_union by set_solver. rewrite size_singleton.
      specialize (IH (ingredient_id (ingredient obj) :: seen)). lia.
Qed.

Lemma later_repeats_snoc seen value obj :
  later_repeats seen (value ++ [obj])
  = later_repeats seen value
    ++ (if decide (ingredient_id (ingredient obj) ∈ seen
                   ∨ ingredient_id (ingredient obj) ∈ ingredient_ids value)
        then [ingredient_name (ingredient obj)] else []).
Proof.
  revert seen. induction value as [|o rest IH]; intros seen.
  - simpl. apply decide_ext. unfold ingredient_ids. set_solver.
  - unfold ingredient_ids. rewrite fmap_cons. fold (ingredient_ids rest).
    cbn [app later_repeats].
    destruct (decide (ingredient_id (ingredient o) ∈ seen)) as [Hs|Hs].
    + rewrite IH. cbn [app]. apply (f_equal (cons _)), (f_equal (app _)).
      apply decide_ext. rewrite elem_of_cons.
      split; [tauto|]. intros [?|[->|?]]; tauto.
    + rewrite IH. apply (f_equal (app _)). apply decide_ext.
      rewrite !elem_of_cons. tauto.
Qed.

(** X7: when the validator rejects a list, the number of names in its
    message, added to the number of distinct ingredient ids of the list, is
    the length of the list: every occurrence of an id beyond its first is
    named once. *)
Theorem duplicates_message_count value (err_obj : list string) :
  validate_ingredients value
  = raise (ValidationError k_detail (msg_duplicates err_obj)) →
  (length err_obj + size (list_to_set (C:=gset Z) (ingredient_ids value))
   = length value)%nat
  ∧ (0 < length err_obj)%nat.
Proof.
  intros Hval.
  destruct (decide (NoDup (ingredient_ids value))) as [Hnd|Hnd].
  { by rewrite validate_ingredients_unique in Hval. }
  rewrite validate_ingredients_repeated in Hval by done.
  injection Hval as <-.
  pose proof (later_repeats_length [] value) as Hlen. simpl in Hlen.
  replace (list_to_set (ingredient_ids value) ∖ ∅)
    with (list_to_set (C:=gset Z) (ingredient_ids value)) in Hlen
    by set_solver.
  split; [done|].
  destruct (later_repeats [] value) eqn:Hnil; [|simpl; lia].
  exfalso. by apply Hnd, (later_repeats_nil []).
Qed.

(** X8: the loop of the validator, run on a list with one more item at the
    end, lists what it listed for the list, followed by the name of the new
    item exactly when the id of that item already occurs in the list. *)
Theorem repeats_loop_snoc value (obj : ingred_item) :
  repeats_loop (value ++ [obj])
    (list_to_set (ingredient_ids (value ++ [obj]))) []
  = repeats_loop value (list_to_set (ingredient_ids value)) []
    ++ (if decide (ingredient_id (ingredient obj) ∈ ingredient_ids value)
        then [ingredient_name (ingredient obj)] else []).
Proof.
  rewrite !repeats_loop_initial, later_repeats_snoc.
  apply (f_equal (app _)). apply decide_ext. set_solver.
Qed.

End duplicate_report.

Lemma duplicates_message_count_witness :
  (length ["flour"; "flour"]
   + size (list_to_set (C:=gset Z)
             (RecipeSerializer.ingredient_ids
                [mkItem flour 2; mkItem egg 1; mkItem flour 3;
                 mkItem flour 9]))
   = 4)%nat.
Proof.
  apply (duplicates_message_count
           [mkItem flour 2; mkItem egg 1; mkItem flour 3; mkItem flour 9]
           ["flour"; "flour"]).
  vm_compute. reflexivity.
Defined.

(** ** The subscription validator and the constraints of the model *)

Section subscription_validator.

Implicit Types (db : database) (user follower : Z).

(** X9: a subscription passes validation for POST exactly when the pair is
    not in the store and the two users differ, and the validated data is
    the pair itself; adding such a pair to a store that satisfies the check
    constraint of the model gives a store that satisfies it. *)
Theorem subscription_post_passes db user follower :
  (SubscriptionsSerializer.validate db POST user follower
   = ret (user, follower)
   ↔ ((user, follower) ∉ subscriptions db) ∧ user ≠ follower)
  ∧ (∀ row, SubscriptionsSerializer.validate db POST user follower = ret row →
       row = (user, follower)
       ∧ (row ∉ subscriptions db)
       ∧ (set_Forall (λ r, r.1 ≠ r.2) (subscriptions db) →
          set_Forall (λ r, r.1 ≠ r.2) (subscriptions db ∪ {[row]}))).
Proof.
  assert (∀ row, SubscriptionsSerializer.validate db POST user follower
                 = ret row →
                 row = (user, follower)
                 ∧ ((user, follower) ∉ subscriptions db) ∧ user ≠ follower)
    as Hpass.
  { intros row. unfold SubscriptionsSerializer.validate.
    rewrite validator_post.
    case_bool_decide as Hin; [done|].
    case_bool_decide as Heq; [done|]. by intros [= <-]. }
  split; [split|].
  - intros Hval. by destruct (Hpass _ Hval) as (_ & ? & ?).
  - intros [Hin Hne]. unfold SubscriptionsSerializer.validate.
    rewrite validator_post.
    by rewrite bool_decide_eq_false_2, bool_decide_eq_false_2.
  - intros row Hval. destruct (Hpass _ Hval) as (-> & Hin & Hne).
    split; [done|]. split; [done|].
    intros Hcheck r [Hr| ->%elem_of_singleton]%elem_of_union; [|done].
    by apply Hcheck.
Qed.

(** X10: a removal passes validation exactly when the pair is in the store
    and the two users differ; so for [user = follower] a DELETE never
    passes: it is answered "not subscribed" when the pair is absent and
    with the self-subscription message when the pair is there. *)
Theorem subscription_delete_passes db user follower :
  (SubscriptionsSerializer.validate db DELETE user follower
   = ret (user, follower)
   ↔ (user, follower) ∈ subscriptions db ∧ user ≠ follower)
  ∧ SubscriptionsSerializer.validate db DELETE user user
    = raise (ValidationError k_errors
               (if bool_decide ((user, user) ∈ subscriptions db)
                then msg_self_subscribe else msg_not_subscribed)).
Proof.
  split; [split|].
  - unfold SubscriptionsSerializer.validate. rewrite validator_delete.
    case_bool_decide as Hin; [|done].
    case_bool_decide as Heq; [done|]. done.
  - intros [Hin Hne]. unfold SubscriptionsSerializer.validate.
    rewrite validator_delete.
    by rewrite bool_decide_eq_true_2, bool_decide_eq_false_2.
  - unfold SubscriptionsSerializer.validate. rewrite validator_delete.
    case_bool_decide; [|done]. by rewrite bool_decide_eq_true_2.
Qed.

(** X11: on a store that satisfies the check constraint of the model, the
    [is_subscribed] field of [me] is false: to itself no user is
    subscribed. *)
Theorem me_not_subscribed db user :
  author_cannot_subscribe_to_himself db →
  UserViewSet.me db user = ret false.
Proof.
  intros Hcheck. unfold UserViewSet.me, UserSerializer.get_is_subscribed.
  simpl. rewrite bool_decide_eq_false_2; [done|].
  intros Hin. by apply (Hcheck _ Hin).
Qed.

End subscription_validator.

Lemma me_not_subscribed_witness :
  (1, 2) ∈ subscriptions followers_db
  ∧ (2, 1) ∈ subscriptions followers_db
  ∧ UserViewSet.me followers_db 1 = ret false.
Proof.
  split; [apply (bool_decide_unpack _); vm_compute; exact I|].
  split; [apply (bool_decide_unpack _); vm_compute; exact I|].
  apply me_not_subscribed.
  unfold author_cannot_subscribe_to_himself. simpl.
  apply (bool_decide_unpack _). vm_compute. exact I.
Defined.

(** ** The flags of a viewer and the writes *)

Section flags_and_writes.

Context `{PyBuiltins} `{KeyColumn}.

(** The three flags read the favourites, the carts and the subscriptions
    only. *)
Lemma recipe_viewer_flags_ext db db' user obj obj_author :
  favourite db' = favourite db →
  carts db' = carts db →
  subscriptions db' = subscriptions db →
  recipe_viewer_flags db' user obj obj_author
  = recipe_viewer_flags db user obj obj_author.
Proof.
  intros Hfav Hcart Hsub.
  unfold recipe_viewer_flags, UserSerializer.get_is_subscribed,
    RecipeSerializer.get_is_favorited,
    RecipeSerializer.get_is_in_shopping_cart,
    UserSerializer.subscriptions_filter_exists.
  by rewrite Hfav, Hcart, Hsub.
Qed.

(** X12: for every viewer the three flags of a recipe are computed without
    an error, and for a signed-in viewer each is true exactly when the
    store holds the row; an update of any recipe, whether it succeeds or
    fails, changes none of them, for any viewer and any recipe. *)
Theorem viewer_flags_read_rows db (user : request_user) (obj obj_author : Z)
    instance data ingredients tags :
  recipe_viewer_flags db user obj obj_author
  = ret (match user with
         | AnonymousUser => mkFlags false false false
         | User u =>
             mkFlags (bool_decide ((obj_author, u) ∈ subscriptions db))
               (bool_decide ((u, obj) ∈ favourite db))
               (bool_decide ((u, obj) ∈ carts db))
         end)
  ∧ recipe_viewer_flags
      (RecipeSerializer.update instance data ingredients tags db).1
      user obj obj_author
    = recipe_viewer_flags db user obj obj_author.
Proof.
  split.
  - destruct user as [|u]; [done|].
    unfold recipe_viewer_flags, UserSerializer.get_is_subscribed,
      RecipeSerializer.get_is_favorited,
      RecipeSerializer.get_is_in_shopping_cart. simpl.
    by repeat case_bool_decide.
  - destruct (update_cases instance data ingredients tags db)
      as [(e & -> & _)|(ids & _ & _ & _ & ->)];
      by apply recipe_viewer_flags_ext.
Qed.

End flags_and_writes.

(** ** More on the recipes of a followed user *)

Section get_recipes_more.

Context `{PyBuiltins}.
Import UserSubscriptionsSerializer.

Lemma get_recipes_take db recipes_limit obj rows :
  get_recipes db recipes_limit obj = ret rows →
  ∃ n, rows = summarise <$> take n (recipes_all db obj).
Proof.
  unfold get_recipes, slice_to.
  destruct (truthy (parse_limit recipes_limit)).
  - destruct (decide (default 0 (parse_limit recipes_limit) < 0)); [done|].
    simpl. intros [= <-]. by eexists.
  - simpl. intros [= <-]. exists (length (recipes_all db obj)).
    by rewrite take_ge.
Qed.

(** X13: whatever the limit, the recipes that [get_recipes] returns are a
    prefix of the user's recipes: no more of them than [recipes_count]
    says, no recipe twice, and each the summary of a row of [Recipe] whose
    author is the user. *)
Theorem get_recipes_rows db (recipes_limit : option string) (obj : Z)
    (rows : list recipe_summary) :
  get_recipes db recipes_limit obj = ret rows →
  rows `prefix_of` (summarise <$> recipes_all db obj)
  ∧ (length rows ≤ get_recipes_count db obj)%nat
  ∧ NoDup (s_id <$> rows)
  ∧ ∀ s, s ∈ rows →
      ∃ r, recipe_table db !! s_id s = Some r ∧ author r = obj
           ∧ s = summarise (s_id s, r).
Proof.
  intros (n & ->)%get_recipes_take.
  split; [|split; [|split]].
  - rewrite fmap_take. apply prefix_take.
  - rewrite length_fmap, length_take. unfold get_recipes_count. lia.
  - rewrite <-list_fmap_compose.
    apply (sublist_NoDup _ ((recipes_all db obj).*1)).
    + unfold recipes_all.
      apply (sublist_NoDup _ ((map_to_list (recipe_table db)).*1)).
      * apply NoDup_fst_map_to_list.
      * apply fmap_sublist, sublist_filter.
    + change (s_id ∘ summarise) with (@fst Z Recipe).
      apply fmap_sublist, sublist_take.
  - intros s ([k r] & -> & Hin%subseteq_take)%list_elem_of_fmap.
    unfold recipes_all in Hin.
    apply list_elem_of_filter in Hin as [Haut Hin%elem_of_map_to_list].
    exists r. by repeat split.
Qed.

(** X14: a [recipes_limit] that parses as a negative number makes
    [get_recipes] fail instead of returning a list. *)
Theorem get_recipes_negative_limit db (recipes_limit : option string)
    (obj n : Z) :
  parse_limit recipes_limit = Some n → n < 0 →
  succeeds (get_recipes db recipes_limit obj) = false.
Proof.
  intros Hn Hneg. unfold get_recipes, slice_to, truthy. rewrite Hn. simpl.
  rewrite bool_decide_eq_false_2 by lia. simpl.
  by rewrite decide_True by lia.
Qed.

End get_recipes_more.

Lemma get_recipes_rows_witness :
  [mkSummary 7 "omelette" "omelette.png" 10]
  `prefix_of` (summarise <$> recipes_all three_recipes_db 1).
Proof.
  apply (get_recipes_rows (H:=decimal_builtins) three_recipes_db
           (Some "1") 1).
  vm_compute. reflexivity.
Defined.

Lemma get_recipes_negative_limit_witness :
  succeeds (UserSubscriptionsSerializer.get_recipes (H:=signed_builtins)
              three_recipes_db (Some "-1") 1) = false.
Proof.
  apply (get_recipes_negative_limit (H:=signed_builtins) three_recipes_db
           (Some "-1") 1 (-1)); [reflexivity|lia].
Defined.

(** ** Deleting a recipe *)

Section destroy_facts.

Context `{PyBuiltins}.
Variable has_object_permission : request_user → Z → Recipe → bool.
Implicit Types (db : database) (user : request_user) (recipe : Z).

Lemma ingred_recipes_of_cleared recipe db :
  ingred_recipes_of (ingredients_clear recipe db).1 recipe = [].
Proof.
  unfold ingred_recipes_of. simpl. apply list_filter_none, Forall_forall.
  by intros row [? _]%list_elem_of_filter.
Qed.

(** X15: a [destroy] that finds no recipe under the key of the URL (or
    cannot read the key as an integer) changes nothing in the store: it
    answers 404 when the key is an integer without a row, and lets the
    [ValueError] of the lookup through when the key is no integer; and
    whenever the answer is one of these two, the store is the one before. *)
Theorem destroy_missing db db' user (pk_kwarg : string) (answer : response) :
  RecipeViewSet.destroy has_object_permission user pk_kwarg db
  = (db', answer) →
  (int_of_str pk_kwarg = None → answer = Uncaught ValueError ∧ db' = db)
  ∧ (∀ recipe, int_of_str pk_kwarg = Some recipe →
       recipe_table db !! recipe = None →
       answer = HTTP_404_NOT_FOUND ∧ db' = db)
  ∧ (answer = HTTP_404_NOT_FOUND ∨ answer = Uncaught ValueError → db' = db).
Proof.
  unfold RecipeViewSet.destroy. intros Hrun.
  destruct (int_of_str pk_kwarg) as [recipe|] eqn:Hpk.
  - destruct (recipe_table db !! recipe) as [row|] eqn:Hrow.
    + simpl in Hrun. rewrite Hrow in Hrun.
      destruct (has_object_permission user recipe row);
        injection Hrun as <- <-;
        (split; [done|]); (split; [intros ? [= <-]; congruence|]);
        by intros [|].
    + injection Hrun as <- <-. split; [done|]. split; [|done].
      by intros ? [= <-].
  - injection Hrun as <- <-. by repeat split.
Qed.

(** X16: [destroy] clears the associations of the recipe before the object
    permission is checked: when the check refuses the request, the recipe
    row is still in the store, unchanged, but the recipe has lost all its
    tags and all its ingredient rows. *)
Theorem destroy_refused_clears db user (pk_kwarg : string) recipe
    (row : Recipe) :
  int_of_str pk_kwarg = Some recipe →
  recipe_table db !! recipe = Some row →
  has_object_permission user recipe row = false →
  (RecipeViewSet.destroy has_object_permission user pk_kwarg db).2
  = PermissionRefused
  ∧ recipe_table
      (RecipeViewSet.destroy has_object_permission user pk_kwarg db).1
    = recipe_table db
  ∧ tags_of
      (RecipeViewSet.destroy has_object_permission user pk_kwarg db).1
      recipe = ∅
  ∧ ingred_recipes_of
      (RecipeViewSet.destroy has_object_permission user pk_kwarg db).1
      recipe = [].
Proof.
  intros Hpk Hrow Hperm. unfold RecipeViewSet.destroy.
  rewrite Hpk, Hrow. simpl. rewrite Hrow, Hperm. simpl.
  split; [done|]. split; [done|]. split.
  - apply (tags_of_cleared recipe db).
  - apply (ingred_recipes_of_cleared recipe (tags_clear recipe db).1).
Qed.

(** X17: a [destroy] that is permitted answers 204, removes the row of the
    recipe and leaves no tag link and no ingredient row of it behind, while
    every other recipe keeps its row, its tags and its ingredient rows. *)
Theorem destroy_permitted db user (pk_kwarg : string) recipe (row : Recipe) :
  int_of_str pk_kwarg = Some recipe →
  recipe_table db !! recipe = Some row →
  has_object_permission user recipe row = true →
  (RecipeViewSet.destroy has_object_permission user pk_kwarg db).2
  = HTTP_204_NO_CONTENT
  ∧ recipe_table
      (RecipeViewSet.destroy has_object_permission user pk_kwarg db).1
    = delete recipe (recipe_table db)
  ∧ Forall (λ r, ir_recipe r ≠ recipe)
      (ingredient_recipe
         (RecipeViewSet.destroy has_object_permission user pk_kwarg db).1)
  ∧ set_Forall (λ r, r.1 ≠ recipe)
      (recipe_tags
         (RecipeViewSet.destroy has_object_permission user pk_kwarg db).1)
  ∧ ∀ r, r ≠ recipe →
      tags_of
        (RecipeViewSet.destroy has_object_permission user pk_kwarg db).1 r
      = tags_of db r
      ∧ ingred_recipes_of
          (RecipeViewSet.destroy has_object_permission user pk_kwarg db).1 r
        = ingred_recipes_of db r.
Proof.
  intros Hpk Hrow Hperm. unfold RecipeViewSet.destroy.
  rewrite Hpk, Hrow. simpl. rewrite Hrow, Hperm. simpl.
  split; [done|]. split; [done|]. split; [|split].
  - apply Forall_forall. by intros r [? _]%list_elem_of_filter.
  - intros r [? _]%elem_of_filter. done.
  - intros r Hne. split.
    + unfold tags_of. simpl. apply set_eq. intros t.
      rewrite !elem_of_map. split.
      * intros (x & -> & [Hr Hin]%elem_of_filter).
        apply elem_of_filter in Hin as [_ [_ Hin]%elem_of_filter].
        exists x. split; [done|]. by apply elem_of_filter.
      * intros (x & -> & [Hr Hin]%elem_of_filter).
        exists x. split; [done|].
        rewrite !elem_of_filter. repeat split; try done; congruence.
    + unfold ingred_recipes_of. simpl.
      by rewrite !filter_recipe_others.
Qed.

End destroy_facts.

Lemma destroy_missing_witness :
  RecipeViewSet.destroy (H:=decimal_builtins) author_only (User 1) "12"
    sample_db
  = (sample_db, HTTP_404_NOT_FOUND).
Proof.
  destruct (RecipeViewSet.destroy (H:=decimal_builtins) author_only
              (User 1) "12" sample_db) as [db' answer] eqn:Hrun.
  destruct (destroy_missing (H:=decimal_builtins) author_only sample_db db'
              (User 1) "12" answer Hrun) as (_ & H404 & _).
  destruct (H404 12) as [-> ->]; reflexivity.
Defined.

Lemma destroy_refused_clears_witness :
  (RecipeViewSet.destroy (H:=decimal_builtins) author_only (User 2) "7"
     sample_db).2 = PermissionRefused
  ∧ tags_of sample_db 7 = list_to_set [1; 2]
  ∧ tags_of
      (RecipeViewSet.destroy (H:=decimal_builtins) author_only (User 2) "7"
         sample_db).1 7 = ∅.
Proof.
  destruct (destroy_refused_clears (H:=decimal_builtins) author_only
              sample_db (User 2) "7" 7
              (mkRecipe 1 "omelette" "omelette.png" "beat, fry" 10))
    as (Hanswer & _ & Htags & _); [reflexivity..|].
  split; [exact Hanswer|]. split; [vm_compute; reflexivity|exact Htags].
Defined.

Lemma destroy_permitted_witness :
  (RecipeViewSet.destroy (H:=decimal_builtins) author_only (User 1) "7"
     sample_db).2 = HTTP_204_NO_CONTENT
  ∧ recipe_table
      (RecipeViewSet.destroy (H:=decimal_builtins) author_only (User 1) "7"
         sample_db).1
    = delete 7 (recipe_table sample_db).
Proof.
  destruct (destroy_permitted (H:=decimal_builtins) author_only
              sample_db (User 1) "7" 7
              (mkRecipe 1 "omelette" "omelette.png" "beat, fry" 10))
    as (Hanswer & Hrows & _); [reflexivity..|].
  split; [exact Hanswer|exact Hrows].
Defined.

(** ** What a create touches *)

Section create_frame_facts.

Context `{PyBuiltins} `{KeyColumn}.
Implicit Types (db : database) (tags : list pyval)
  (ingredients : list ingred_item) (data : recipe_fields).

Lemma tags_of_created_ne user data ingredients (ids : list Z) r db :
  r ≠ next_pk (recipe_table db) →
  tags_of (created_store user data ingredients (Some <$> ids) db) r
  = tags_of db r.
Proof.
  intros Hne. unfold tags_of, created_store. simpl. apply set_eq. intros t.
  rewrite !elem_of_map. split.
  - intros (row & -> & [Hr Hin]%elem_of_filter).
    apply elem_of_union in Hin as [Hin|Hin].
    + exists row. split; [done|]. by apply elem_of_filter.
    + apply elem_of_through_rows in Hin as [Hpk _]. congruence.
  - intros (row & -> & [Hr Hin]%elem_of_filter).
    exists row. split; [done|]. apply elem_of_filter. split; [done|].
    by apply elem_of_union_l.
Qed.

(** X19: in a store that respects its foreign keys a create, whether it
    returns or raises, leaves every recipe that was there as it was (its
    row, its tags, its ingredient rows) and does not touch the tag
    catalogue, the favourites, the carts or the subscriptions. *)
Theorem create_frame db (user : Z) data ingredients tags (r : Z) :
  referential_integrity db →
  r ∈ dom (recipe_table db) →
  tags_of (RecipeSerializer.create user data ingredients tags db).1 r
  = tags_of db r
  ∧ ingred_recipes_of
      (RecipeSerializer.create user data ingredients tags db).1 r
    = ingred_recipes_of db r
  ∧ (recipe_table
       (RecipeSerializer.create user data ingredients tags db).1 !! r)
    = (recipe_table db !! r)
  ∧ tag_table (RecipeSerializer.create user data ingredients tags db).1
    = tag_table db
  ∧ favourite (RecipeSerializer.create user data ingredients tags db).1
    = favourite db
  ∧ carts (RecipeSerializer.create user data ingredients tags db).1
    = carts db
  ∧ subscriptions
      (RecipeSerializer.create user data ingredients tags db).1
    = subscriptions db.
Proof.
  intros Hwf Hr.
  assert (r ≠ next_pk (recipe_table db)) as Hne.
  { intros ->. by apply (next_pk_fresh (recipe_table db)). }
  destruct (create_cases user data ingredients tags db Hwf)
    as [[e ->]|[(e & _ & ->)|(ids & _ & _ & ->)]]; [done|..].
  - simpl. repeat split; try done. by rewrite lookup_insert_ne.
  - split; [by apply tags_of_created_ne|]. split; [|split; [|done]].
    + unfold ingred_recipes_of, created_store. simpl.
      by rewrite filter_app, filter_recipe_new_ne, app_nil_r.
    + simpl. by rewrite lookup_insert_ne.
Qed.

End create_frame_facts.

Lemma create_frame_witness :
  tags_of sample_create.1 7 = tags_of sample_db 7
  ∧ ingred_recipes_of sample_create.1 7 = ingred_recipes_of sample_db 7.
Proof.
  destruct (create_frame (H:=decimal_builtins) sample_db 2 sample_fields
              [mkItem flour 4; mkItem egg 1] [PyInt 1; PyInt 3] 7)
    as (Htags & Hrows & _).
  - apply (bool_decide_unpack _). vm_compute. exact I.
  - apply (bool_decide_unpack _). vm_compute. exact I.
  - split; [exact Htags|exact Hrows].
Defined.

(** ** Images sent as data URIs *)

Section split_facts.

Implicit Types (s sep cur pre rest : string) (c : Ascii.ascii).

Lemma string_app_cons c s1 s2 : String c s1 +:+ s2 = String c (s1 +:+ s2).
Proof. reflexivity. Qed.

Lemma string_app_nil_l s : EmptyString +:+ s = s.
Proof. reflexivity. Qed.

Lemma string_app_nil_r s : s +:+ EmptyString = s.
Proof.
  induction s as [|c s IH]; [done|]. by rewrite string_app_cons, IH.
Qed.

Lemma string_app_snoc cur c s :
  (cur +:+ String c EmptyString) +:+ s = cur +:+ String c s.
Proof.
  induction cur as [|c' cur IH]; [done|].
  by rewrite !string_app_cons, IH.
Qed.

Lemma string_app_assoc s1 s2 s3 : (s1 +:+ s2) +:+ s3 = s1 +:+ (s2 +:+ s3).
Proof.
  induction s1 as [|c s1 IH]; [done|]. by rewrite !string_app_cons, IH.
Qed.

Lemma prefix_app sep rest : String.prefix sep (sep +:+ rest) = true.
Proof.
  induction sep as [|c sep IH]; [by destruct rest|].
  rewrite string_app_cons. simpl. by destruct (Ascii.ascii_dec c c).
Qed.

Lemma prefix_head_ne c c' sep s :
  c ≠ c' → String.prefix (String c sep) (String c' s) = false.
Proof. intros Hne. simpl. by destruct (Ascii.ascii_dec c c'). Qed.

Lemma split_go_skip sep (t : string) cur rest :
  split_go sep (String.length t) cur (t +:+ rest) = split_go sep 0 cur rest.
Proof.
  induction t as [|c t IH]; [done|].
  rewrite string_app_cons. exact IH.
Qed.

(** A string in which the first character of the separator does not occur
    is not cut. *)
Lemma split_go_whole c sep cur s :
  occurs c s = false →
  split_go (String c sep) 0 cur s = [cur +:+ s].
Proof.
  revert cur. induction s as [|c' s IH]; intros cur Hocc.
  - simpl. by rewrite string_app_nil_r.
  - simpl in Hocc. apply orb_false_elim in Hocc as [Hne Hocc].
    apply bool_decide_eq_false in Hne.
    cbn [split_go]. rewrite prefix_head_ne by done.
    rewrite IH by done. by rewrite string_app_snoc.
Qed.

(** The first cut is at the first occurrence of the separator. *)
Lemma split_go_first c sep cur pre rest :
  occurs c pre = false →
  split_go (String c sep) 0 cur (pre +:+ String c sep +:+ rest)
  = (cur +:+ pre) :: split_go (String c sep) 0 EmptyString rest.
Proof.
  revert cur. induction pre as [|c' pre IH]; intros cur Hocc.
  - rewrite string_app_nil_l, string_app_nil_r, string_app_cons.
    cbn [split_go]. rewrite <-string_app_cons, prefix_app.
    cbn [String.length]. rewrite Nat.sub_1_r. cbn [Nat.pred].
    by rewrite split_go_skip.
  - simpl in Hocc. apply orb_false_elim in Hocc as [Hne Hocc].
    apply bool_decide_eq_false in Hne.
    rewrite (string_app_cons c' pre). cbn [split_go]. rewrite prefix_head_ne by done.
    rewrite IH by done. by rewrite string_app_snoc.
Qed.

Lemma occurs_app c s1 s2 :
  occurs c (s1 +:+ s2) = occurs c s1 || occurs c s2.
Proof.
  induction s1 as [|c' s1 IH]; [done|].
  rewrite string_app_cons. simpl. by rewrite IH, orb_assoc.
Qed.

Lemma prefix_data_image s :
  String.prefix "data:image" ("data:image" +:+ s) = true.
Proof. apply prefix_app. Qed.

End split_facts.

Section base64_image_field.

Context {A : Type}.
Variable b64decode : string → result string.
Variable super_to_internal_value : image_data → result A.

(** X20: for a data URI ["data:image/" ext ";base64," body] in which no
    semicolon occurs in [ext] or [body] and no slash in [ext], the field
    decodes [body] and hands a file named ["temp." ext] with the decoded
    content to the image field; a failure of the decoder is the failure of
    the field. *)
Theorem data_uri_named_by_extension (ext body : string) :
  occurs semicolon ext = false →
  occurs slash ext = false →
  occurs semicolon body = false →
  Base64ImageField.to_internal_value b64decode super_to_internal_value
    (StrData ("data:image/" +:+ ext +:+ ";base64," +:+ body))
  = let! decoded := b64decode body in
    super_to_internal_value
      (FileData (mkContentFile decoded ("temp." +:+ ext))).
Proof.
  intros Hext Hslash Hbody. unfold Base64ImageField.to_internal_value.
  change ("data:image/" +:+ ext +:+ ";base64," +:+ body)
    with ("data:image" +:+ ("/" +:+ ext +:+ ";base64," +:+ body)).
  rewrite prefix_data_image.
  change ("data:image" +:+ ("/" +:+ ext +:+ ";base64," +:+ body))
    with ("data:image/" +:+ ext +:+ ";base64," +:+ body).
  assert (py_split ";base64," ("data:image/" +:+ ext +:+ ";base64," +:+ body)
          = ["data:image/" +:+ ext; body]) as ->.
  { unfold py_split.
    rewrite <-(string_app_assoc "data:image/" ext (";base64," +:+ body)).
    etrans; [apply (split_go_first semicolon "base64," EmptyString
                      ("data:image/" +:+ ext) body);
             by rewrite occurs_app, Hext|].
    f_equal.
    exact (split_go_whole semicolon "base64," EmptyString body Hbody). }
  assert (py_split "/" ("data:image/" +:+ ext) = ["data:image"; ext]) as ->.
  { unfold py_split.
    etrans; [exact (split_go_first slash EmptyString EmptyString
                      "data:image" ext eq_refl)|].
    f_equal.
    exact (split_go_whole slash EmptyString EmptyString ext Hslash). }
  done.
Qed.

(** X21: a string that starts with ["data:image"] and holds no semicolon
    is neither handed to the image field nor refused as invalid: unpacking
    the single piece of the split raises [ValueError], whatever the decoder
    and the image field would do. *)
Theorem data_uri_without_separator (s : string) :
  occurs semicolon s = false →
  Base64ImageField.to_internal_value b64decode super_to_internal_value
    (StrData ("data:image" +:+ s))
  = raise ValueError.
Proof.
  intros Hocc. unfold Base64ImageField.to_internal_value.
  rewrite prefix_data_image. unfold py_split.
  assert (split_go ";base64," 0 EmptyString ("data:image" +:+ s)
          = ["data:image" +:+ s]) as ->; [|done].
  apply (split_go_whole semicolon "base64," EmptyString).
  by rewrite occurs_app, Hocc.
Qed.

(** X22: a data URI with a second [";base64,"] in its payload is cut into
    three pieces, and unpacking them into two names raises [ValueError]:
    nothing is decoded. *)
Theorem data_uri_two_separators (ext body1 body2 : string) :
  occurs semicolon ext = false →
  occurs semicolon body1 = false →
  occurs semicolon body2 = false →
  Base64ImageField.to_internal_value b64decode super_to_internal_value
    (StrData ("data:image/" +:+ ext +:+ ";base64," +:+ body1
              +:+ ";base64," +:+ body2))
  = raise ValueError.
Proof.
  intros Hext Hbody1 Hbody2. unfold Base64ImageField.to_internal_value.
  change ("data:image/" +:+ ext +:+ ";base64," +:+ body1
          +:+ ";base64," +:+ body2)
    with ("data:image" +:+ ("/" +:+ ext +:+ ";base64," +:+ body1
                            +:+ ";base64," +:+ body2)).
  rewrite prefix_data_image.
  change ("data:image" +:+ ("/" +:+ ext +:+ ";base64," +:+ body1
                            +:+ ";base64," +:+ body2))
    with ("data:image/" +:+ ext +:+ ";base64," +:+ body1
          +:+ ";base64," +:+ body2).
  assert (py_split ";base64," ("data:image/" +:+ ext +:+ ";base64," +:+ body1
                               +:+ ";base64," +:+ body2)
          = ["data:image/" +:+ ext; body1; body2]) as ->; [|done].
  unfold py_split.
  rewrite <-(string_app_assoc "data:image/" ext).
  etrans; [apply (split_go_first semicolon "base64," EmptyString
                    ("data:image/" +:+ ext));
           by rewrite occurs_app, Hext|].
  f_equal.
  etrans; [exact (split_go_first semicolon "base64," EmptyString
                    body1 body2 Hbody1)|].
  f_equal.
  exact (split_go_whole semicolon "base64," EmptyString body2 Hbody2).
Qed.

End base64_image_field.

Lemma data_uri_named_by_extension_witness :
  Base64ImageField.to_internal_value (λ s, ret s) (λ d, ret d)
    (StrData "data:image/png;base64,iVBORw0KGgo=")
  = ret (FileData (mkContentFile "iVBORw0KGgo=" "temp.png")).
Proof.
  apply (data_uri_named_by_extension (λ s, ret s) (λ d, ret d)
           "png" "iVBORw0KGgo="); reflexivity.
Defined.

Lemma data_uri_without_separator_witness :
  Base64ImageField.to_internal_value (λ s, ret s) (λ d, ret d)
    (StrData "data:image/png,iVBORw0KGgo=")
  = raise ValueError.
Proof.
  apply (data_uri_without_separator (λ s, ret s) (λ d, ret d)
           "/png,iVBORw0KGgo=").
  reflexivity.
Defined.

Lemma data_uri_two_separators_witness :
  Base64ImageField.to_internal_value (λ s, ret s) (λ d, ret d)
    (StrData "data:image/png;base64,iVBO;base64,Rw0K")
  = raise ValueError.
Proof.
  apply (data_uri_two_separators (λ s, ret s) (λ d, ret d)
           "png" "iVBO" "Rw0K"); reflexivity.
Defined.
